(** * Announcement endpoints of the High School Management System API

    A shallow embedding of [src/backend/routers/announcements.py]:
    the date helpers, level normalisation, serialisation, the teacher
    gate and the five request handlers, over an explicit model of the
    two document collections the module reads and writes.

    Conventions. A Python [str] is the string of its UTF-8 bytes (the
    literals of the module are ASCII), which compares as the [str] does,
    by code point. A handler receives a payload
    that the request model has already validated (field types, message
    length); the clock and the id generator are inputs of the handlers
    that use them. An exception raised by a handler is the [inl] result
    of its run, next to the state the store is left in. *)

From Stdlib Require Import ZArith Ascii String List Sorted Permutation Lia.
From stdpp Require Import base option list strings gmap fin_maps.

Local Open Scope string_scope.
Local Open Scope Z_scope.

(** ** Python values used by the module *)

(** [Optional[str]]: [None] is Python's [None]. *)
Abbreviation opt_str := (option string).

(** [not value] on an [Optional[str]]: [None] and [""] are falsy. *)
Definition truthy (value : opt_str) : bool :=
  match value with
  | None => false
  | Some s => negb (String.eqb s "")
  end.

(** [value or None]. *)
Definition or_None (value : opt_str) : opt_str :=
  if truthy value then value else None.

(** [value or other] where [other] is a string. *)
Definition or_str (value : opt_str) (other : string) : string :=
  match value with
  | Some s => if String.eqb s "" then other else s
  | None => other
  end.

(** A document or a serialized record as the handlers write it: every
    field holds a string or [None]. What list-active does on a stored
    document that holds other values is the subject of [Raw] below. *)
Abbreviation dict := (gmap string (option string)).

(** [doc.get(key)]: [None] for a missing key. *)
Definition get (doc : dict) (key : string) : opt_str :=
  match doc !! key with
  | Some v => v
  | None => None
  end.

(** [doc.get(key, dflt)]: the default only replaces a missing key. *)
Definition get_default (doc : dict) (key : string) (dflt : opt_str) : opt_str :=
  match doc !! key with
  | Some v => v
  | None => dflt
  end.

(** [x and test(x)] used as a condition, for an optional [x] whose values
    are all truthy. *)
Definition and_then {A} (x : option A) (test : A → bool) : bool :=
  match x with
  | Some a => test a
  | None => false
  end.

(** ** [datetime.date] *)

Record date := mkdate { year : Z; month : Z; day : Z }.

(** Dates compare as (year, month, day) triples. *)
Definition date_cmp (a b : date) : comparison :=
  match year a ?= year b with
  | Eq => match month a ?= month b with
          | Eq => day a ?= day b
          | c => c
          end
  | c => c
  end.

Definition date_lt (a b : date) : bool :=
  match date_cmp a b with Lt => true | _ => false end.
Definition date_gt (a b : date) : bool :=
  match date_cmp a b with Gt => true | _ => false end.
Definition date_le (a b : date) : bool :=
  match date_cmp a b with Gt => false | _ => true end.

(** *** [date.fromisoformat] on the extended format [YYYY-MM-DD] *)

Definition digit (c : ascii) : option Z :=
  let n := Z.of_N (N_of_ascii c) in
  if (48 <=? n) && (n <=? 57) then Some (n - 48) else None.

Fixpoint digits (acc : Z) (cs : list ascii) : option Z :=
  match cs with
  | [] => Some acc
  | c :: cs' =>
      match digit c with
      | Some d => digits (10 * acc + d) cs'
      | None => None
      end
  end.

Definition is_leap (y : Z) : bool :=
  (y mod 4 =? 0) && (negb (y mod 100 =? 0) || (y mod 400 =? 0)).

Definition days_in_month (y m : Z) : Z :=
  if m =? 2 then (if is_leap y then 29 else 28)
  else if (m =? 4) || (m =? 6) || (m =? 9) || (m =? 11) then 30
  else 31.

(** The range checks of the [date] constructor ([MINYEAR = 1],
    [MAXYEAR = 9999]); outside them it raises [ValueError]. *)
Definition valid_ymd (y m d : Z) : bool :=
  (1 <=? y) && (y <=? 9999) && (1 <=? m) && (m <=? 12)
  && (1 <=? d) && (d <=? days_in_month y m).

(** [None] stands for the [ValueError] raised on a malformed string. *)
Definition date_fromisoformat (s : string) : option date :=
  match list_ascii_of_string s with
  | [y1; y2; y3; y4; s1; m1; m2; s2; d1; d2] =>
      if Ascii.eqb s1 "-" && Ascii.eqb s2 "-" then
        match digits 0 [y1; y2; y3; y4], digits 0 [m1; m2], digits 0 [d1; d2] with
        | Some y, Some m, Some d =>
            if valid_ymd y m d then Some (mkdate y m d) else None
        | _, _, _ => None
        end
      else None
  | _ => None
  end.

(** ** [str.strip] and [str.lower] on ASCII text *)

(** The ASCII characters for which [str.isspace] holds. *)
Definition is_space (c : ascii) : bool :=
  let n := N_of_ascii c in
  ((9 <=? n) && (n <=? 13) || (28 <=? n) && (n <=? 32))%N.

Fixpoint lstrip (s : string) : string :=
  match s with
  | String c s' => if is_space c then lstrip s' else s
  | EmptyString => EmptyString
  end.

(** Drops trailing whitespace: a character is kept when it is not a space
    or when something after it survives. *)
Fixpoint rstrip (s : string) : string :=
  match s with
  | String c s' =>
      match rstrip s' with
      | EmptyString => if is_space c then EmptyString else String c EmptyString
      | r => String c r
      end
  | EmptyString => EmptyString
  end.

Definition strip (s : string) : string := rstrip (lstrip s).

(** [str.strip()] is a method of the Python library, which removes every
    leading and trailing whitespace character, Unicode whitespace
    included: the handlers take it as an interface. [strip] above is what
    it does on ASCII text. *)
Class StrStrip := { str_strip : string → string }.

(** The instance that runs the handlers on ASCII samples. *)
Definition ascii_strip : StrStrip := {| str_strip := strip |}.

Definition lower_ascii (c : ascii) : ascii :=
  let n := N_of_ascii c in
  if ((65 <=? n) && (n <=? 90))%N then ascii_of_N (n + 32) else c.

Fixpoint lower (s : string) : string :=
  match s with
  | String c s' => String (lower_ascii c) (lower s')
  | EmptyString => EmptyString
  end.

(** ** Module constants and request models *)

Definition ALLOWED_LEVELS : list string := ["info"; "success"; "warning"].

Module AnnouncementCreate.
Record t := mk {
  message : string;
  start_date : opt_str;
  end_date : string;
  level : opt_str
}.
End AnnouncementCreate.

Module AnnouncementUpdate.
Record t := mk {
  message : opt_str;
  start_date : opt_str;
  end_date : opt_str;
  level : opt_str
}.
End AnnouncementUpdate.

Definition normalize_level (value : opt_str) : string :=
  match value with
  | None | Some "" => "info"
  | Some v =>
      let normalized := lower v in
      if existsb (String.eqb normalized) ALLOWED_LEVELS then normalized else "info"
  end.

(** ** [list.sort(key=...)] with string keys

    Python's sort is stable and compares keys with [<]; a stable insertion
    sort produces the same list. *)

Section Sort.
Context {A : Type} (key : A → string).

Fixpoint insert_by (x : A) (l : list A) : list A :=
  match l with
  | [] => [x]
  | y :: l' =>
      if String.ltb (key y) (key x) then y :: insert_by x l' else x :: l
  end.

Fixpoint sort_by (l : list A) : list A :=
  match l with
  | [] => []
  | x :: l' => insert_by x (sort_by l')
  end.
End Sort.

(** ** The document store *)

(** A collection holds its documents in natural (insertion) order. *)
Abbreviation collection := (list (gmap string (option string))).

Definition has_id (id : string) (doc : dict) : bool :=
  bool_decide (doc !! "_id" = Some (Some id)).

(** [collection.find_one({"_id": id})]: the first match, or [None]. *)
Definition find_one (c : collection) (id : string) : option dict :=
  List.find (has_id id) c.

(** [collection.insert_one(record)]: [None] stands for the
    [DuplicateKeyError] raised when the [_id] is already taken, the one
    failure of the store that depends on its contents. *)
Definition insert_one (c : collection) (record : dict) : option collection :=
  if existsb (λ doc, bool_decide (doc !! "_id" = record !! "_id")) c
  then None
  else Some (c ++ [record])%list.

(** [collection.update_one({"_id": id}, {"$set": fields})]: the first
    match gets every key of [fields] overwritten; without a match nothing
    changes. *)
Fixpoint update_one (c : collection) (id : string) (fields : dict) : collection :=
  match c with
  | [] => []
  | doc :: c' =>
      if has_id id doc then (fields ∪ doc) :: c'
      else doc :: update_one c' id fields
  end.

(** [collection.delete_one({"_id": id})]: the first match is removed; the
    second component is [deleted_count]. *)
Fixpoint delete_one (c : collection) (id : string) : collection * Z :=
  match c with
  | [] => ([], 0)
  | doc :: c' =>
      if has_id id doc then (c', 1)
      else let '(r, n) := delete_one c' id in (doc :: r, n)
  end.

(** The two module-level collection handles. *)
Record db := mkdb {
  announcements_collection : collection;
  teachers_collection : collection
}.

(** The store invariant MongoDB maintains: [_id] is a unique key. *)
Definition ids (c : collection) : list (option opt_str) :=
  (λ doc : dict, doc !! "_id") <$> c.
Definition unique_ids (c : collection) : Prop := NoDup (ids c).

(** ** Handlers run in a state monad over [db] that can raise *)

Record HTTPException := mkHTTPException { status_code : Z; detail : string }.

Definition Unauthorized (e : HTTPException) : Prop := status_code e = 401.
Definition BadRequest (e : HTTPException) : Prop := status_code e = 400.
Definition NotFound (e : HTTPException) : Prop := status_code e = 404.
Definition InternalError (e : HTTPException) : Prop := status_code e = 500.

Definition M (A : Type) : Type := db → (HTTPException + A) * db.

#[global] Instance M_ret : MRet M := λ A a s, (inr a, s).
#[global] Instance M_bind : MBind M := λ A B f m s,
  match m s with
  | (inr a, s') => f a s'
  | (inl e, s') => (inl e, s')
  end.

Definition raise {A} (e : HTTPException) : M A := λ s, (inl e, s).
Definition reads {A} (f : db → A) : M A := λ s, (inr (f s), s).
Definition set_announcements (c : collection) : M unit :=
  λ s, (inr (), mkdb c (teachers_collection s)).

(** A dict is falsy when empty, an optional dict also when [None]. *)
Definition truthy_doc (doc : option dict) : bool :=
  match doc with
  | None => false
  | Some d => negb (bool_decide (d = ∅))
  end.

Definition serialize_announcement (doc : dict) : dict :=
  list_to_map [
    ("id", get doc "_id");
    ("message", get doc "message");
    ("start_date", get doc "start_date");
    ("end_date", get doc "end_date");
    ("level", get_default doc "level" (Some "info"));
    ("created_at", get doc "created_at");
    ("updated_at", get doc "updated_at")
  ].

Definition require_teacher (teacher_username : opt_str) : M unit :=
  match teacher_username with
  | None | Some "" => raise (mkHTTPException 401 "Authentication required")
  | Some username =>
      teacher ← reads (λ s, find_one (teachers_collection s) username);
      if negb (truthy_doc teacher)
      then raise (mkHTTPException 401 "Invalid teacher credentials")
      else mret ()
  end.

Definition get_all_announcements (teacher_username : opt_str) : M (list dict) :=
  require_teacher teacher_username;;
  docs ← reads announcements_collection;
  let announcements := map serialize_announcement docs in
  mret (sort_by (λ item, or_str (get item "created_at") "") announcements).

Definition delete_announcement (announcement_id : string)
    (teacher_username : opt_str) : M dict :=
  require_teacher teacher_username;;
  docs ← reads announcements_collection;
  let '(remaining, deleted_count) := delete_one docs announcement_id in
  set_announcements remaining;;
  if deleted_count =? 0
  then raise (mkHTTPException 404 "Announcement not found")
  else mret {[ "message" := Some "Announcement deleted" ]}.

(** ** Sample data used by the concrete checks *)

Definition teachers0 : collection :=
  [ {[ "_id" := Some "mrodriguez" ]} ].

Definition ann1 : dict :=
  list_to_map [
    ("_id", Some "a1"); ("message", Some "Science fair");
    ("start_date", Some "2030-01-10"); ("end_date", Some "2030-02-01");
    ("level", Some "warning");
    ("created_at", Some "2029-12-01T08:00:00"); ("updated_at", Some "2029-12-01T08:00:00")
  ].

(** A record whose [start_date] is not a date. *)
Definition ann2 : dict :=
  list_to_map [
    ("_id", Some "a2"); ("message", Some "Exam week");
    ("start_date", Some "soon"); ("end_date", Some "2030-03-01");
    ("level", Some "info");
    ("created_at", Some "2029-12-02T08:00:00"); ("updated_at", Some "2029-12-02T08:00:00")
  ].

(** A record whose [end_date] is not a date. *)
Definition ann3 : dict :=
  list_to_map [
    ("_id", Some "a3"); ("message", Some "Picnic");
    ("start_date", None); ("end_date", Some "someday");
    ("level", Some "success");
    ("created_at", Some "2029-12-03T08:00:00"); ("updated_at", Some "2029-12-03T08:00:00")
  ].

Definition db0 : db := mkdb [] teachers0.
Definition db1 : db := mkdb [ann1] teachers0.
Definition db2 : db := mkdb [ann2] teachers0.
Definition db3 : db := mkdb [ann2; ann3; ann1] teachers0.

Definition today0 : date := mkdate 2030 1 15.

(** A create payload whose [start_date] is not a date; it yields [ann2]. *)
Definition payload2 : AnnouncementCreate.t :=
  AnnouncementCreate.mk "  Exam week " (Some "soon") "2030-03-01" (Some "INFO").

(** A create payload with an empty [start_date] and an unknown level. *)
Definition payload4 : AnnouncementCreate.t :=
  AnnouncementCreate.mk "Bake sale" (Some "") "2030-04-01" (Some "bogus").

(** Update payloads: an unparseable [end_date]; an empty [start_date] alone;
    an empty [start_date] together with a new [end_date]. *)
Definition upd_bad_end : AnnouncementUpdate.t :=
  AnnouncementUpdate.mk None None (Some "not-a-date") None.
Definition upd_clear_start : AnnouncementUpdate.t :=
  AnnouncementUpdate.mk None (Some "") None None.
Definition upd_clear_start_new_end : AnnouncementUpdate.t :=
  AnnouncementUpdate.mk None (Some "") (Some "2031-01-01") None.

(** ** The handlers that parse dates, over any [date.fromisoformat] *)

Section Handlers.

(** [fromisoformat s = None] when [date.fromisoformat(s)] raises
    [ValueError]; the accepted syntax depends on the interpreter version,
    [date_fromisoformat] above is the [YYYY-MM-DD] one. *)
Variable fromisoformat : string → option date.
Context {SS : StrStrip}.

Definition parse_date (value : opt_str) : option date :=
  match value with
  | None | Some "" => None
  | Some s => fromisoformat s
  end.

(** A [date] is always truthy, so [not end] tests for [None]. *)
Definition is_active_announcement (doc : dict) (today : date) : bool :=
  let start := parse_date (get doc "start_date") in
  let end_ := parse_date (get doc "end_date") in
  match end_ with
  | None => false
  | Some e =>
      if and_then start (λ s, date_lt today s)
      then false
      else date_le today e
  end.

(** [today] is the value of [date.today()]. *)
Definition get_active_announcements (today : date) : M (list dict) :=
  docs ← reads announcements_collection;
  let announcements :=
    fold_left (λ acc doc,
      if is_active_announcement doc today
      then (acc ++ [serialize_announcement doc])%list else acc) docs [] in
  mret (sort_by (λ item, or_str (get item "end_date") "9999-12-31") announcements).

(** [announcement_id] is the value of [uuid.uuid4().hex] and [now_iso] of
    [datetime.utcnow().isoformat()]. *)
Definition create_announcement (announcement_id now_iso : string)
    (payload : AnnouncementCreate.t) (teacher_username : opt_str) : M dict :=
  require_teacher teacher_username;;
  let start_date := parse_date (AnnouncementCreate.start_date payload) in
  let end_date := parse_date (Some (AnnouncementCreate.end_date payload)) in
  match end_date with
  | None => raise (mkHTTPException 400 "Invalid request")
  | Some e =>
      if and_then start_date (λ s, date_gt s e)
      then raise (mkHTTPException 400 "Invalid request")
      else
        let record : dict := list_to_map [
          ("_id", Some announcement_id);
          ("message", Some (str_strip (AnnouncementCreate.message payload)));
          ("start_date", or_None (AnnouncementCreate.start_date payload));
          ("end_date", Some (AnnouncementCreate.end_date payload));
          ("level", Some (normalize_level (AnnouncementCreate.level payload)));
          ("created_at", Some now_iso);
          ("updated_at", Some now_iso)
        ] in
        docs ← reads announcements_collection;
        match insert_one docs record with
        | None => raise (mkHTTPException 500 "Request failed")
        | Some docs' =>
            (set_announcements docs';;
             mret (serialize_announcement record))
        end
  end.

Definition update_announcement (now_iso : string) (announcement_id : string)
    (payload : AnnouncementUpdate.t) (teacher_username : opt_str) : M dict :=
  require_teacher teacher_username;;
  let update_fields : dict := {[ "updated_at" := Some now_iso ]} in
  let update_fields :=
    match AnnouncementUpdate.message payload with
    | Some m => <[ "message" := Some (str_strip m) ]> update_fields
    | None => update_fields
    end in
  update_fields ←
    match AnnouncementUpdate.start_date payload with
    | Some sd =>
        let start_date := parse_date (Some sd) in
        if truthy (Some sd) && negb (bool_decide (is_Some start_date))
        then raise (mkHTTPException 400 "Invalid request")
        else mret (<[ "start_date" := or_None (Some sd) ]> update_fields)
    | None => mret update_fields
    end;
  update_fields ←
    match AnnouncementUpdate.end_date payload with
    | Some ed =>
        match parse_date (Some ed) with
        | None => raise (mkHTTPException 400 "Invalid request")
        | Some _ => mret (<[ "end_date" := Some ed ]> update_fields)
        end
    | None => mret update_fields
    end;
  let update_fields :=
    match AnnouncementUpdate.level payload with
    | Some l => <[ "level" := Some (normalize_level (Some l)) ]> update_fields
    | None => update_fields
    end in
  existing ← reads (λ s, find_one (announcements_collection s) announcement_id);
  match existing with
  | Some existing_doc =>
      if negb (truthy_doc existing)
      then raise (mkHTTPException 404 "Announcement not found")
      else
        let start := parse_date
          (get_default update_fields "start_date" (get existing_doc "start_date")) in
        let end_ := parse_date
          (get_default update_fields "end_date" (get existing_doc "end_date")) in
        match end_ with
        | None => raise (mkHTTPException 400 "Invalid request")
        | Some e =>
            if and_then start (λ s, date_gt s e)
            then raise (mkHTTPException 400 "Invalid request")
            else
              (docs ← reads announcements_collection;
               (* [update_one] on an existing document does not raise here *)
               set_announcements (update_one docs announcement_id update_fields);;
               updated ← reads (λ s, find_one (announcements_collection s) announcement_id);
               match updated with
               | Some updated_doc => mret (serialize_announcement updated_doc)
               | None =>
                   (* [None.get] raises [AttributeError]: an unhandled exception *)
                   raise (mkHTTPException 500 "Internal Server Error")
               end)
        end
  | None => raise (mkHTTPException 404 "Announcement not found")
  end.

End Handlers.

(** ** Documents as the store holds them

    A stored document is a [Dict[str, Any]]. The handlers above write a
    string or null into every field, and [dict] models the documents they
    write; a document written to the collection by another client can
    hold any value. [Raw] is the read path of list-active over such
    documents: [PInt] stands for the values that are neither a string nor
    null, and an exception that nothing catches is the [inl] result. *)

Inductive pyval :=
  | PNone
  | PStr (s : string)
  | PInt (n : Z).

(** A [dict] value as a stored value. *)
Definition of_opt (value : opt_str) : pyval :=
  match value with
  | Some s => PStr s
  | None => PNone
  end.

(** A document of the handlers as a stored document. *)
Definition embed (doc : dict) : gmap string pyval := of_opt <$> doc.

Module Raw.

Inductive exn := TypeError.

Definition get (doc : gmap string pyval) (key : string) : pyval :=
  match doc !! key with
  | Some v => v
  | None => PNone
  end.

Definition get_default (doc : gmap string pyval) (key : string) (dflt : pyval) : pyval :=
  match doc !! key with
  | Some v => v
  | None => dflt
  end.

Definition serialize_announcement (doc : gmap string pyval) : gmap string pyval :=
  list_to_map [
    ("id", get doc "_id");
    ("message", get doc "message");
    ("start_date", get doc "start_date");
    ("end_date", get doc "end_date");
    ("level", get_default doc "level" (PStr "info"));
    ("created_at", get doc "created_at");
    ("updated_at", get doc "updated_at")
  ].

(** [item.get("end_date") or "9999-12-31"] when that is a string; [None]
    when it is a value of another kind, which [<] cannot order against the
    strings. *)
Definition end_date_key (item : gmap string pyval) : option string :=
  match get item "end_date" with
  | PNone => Some "9999-12-31"
  | PStr s => Some (if String.eqb s "" then "9999-12-31" else s)
  | PInt n => if n =? 0 then Some "9999-12-31" else None
  end.

Definition str_key (item : gmap string pyval) : string :=
  match end_date_key item with
  | Some k => k
  | None => ""
  end.

Section Parse.

Variable fromisoformat : string → option date.

(** [date.fromisoformat] raises [ValueError] on a string it rejects, which
    [parse_date] catches, and [TypeError] on an argument that is not a
    string, which it does not. *)
Definition parse_date (value : pyval) : exn + option date :=
  match value with
  | PNone | PStr "" => inr None
  | PStr s => inr (fromisoformat s)
  | PInt _ => inl TypeError
  end.

(** Both dates are parsed before either is looked at. *)
Definition is_active_announcement (doc : gmap string pyval) (today : date) : exn + bool :=
  match parse_date (get doc "start_date") with
  | inl e => inl e
  | inr start =>
      match parse_date (get doc "end_date") with
      | inl e => inl e
      | inr end_ =>
          inr match end_ with
              | None => false
              | Some e =>
                  if and_then start (λ s, date_lt today s)
                  then false
                  else date_le today e
              end
      end
  end.

(** The loop of [get_active_announcements]: it stops at the first document
    on which [is_active_announcement] raises. *)
Fixpoint collect (today : date) (docs announcements : list (gmap string pyval))
    : exn + list (gmap string pyval) :=
  match docs with
  | [] => inr announcements
  | doc :: docs' =>
      match is_active_announcement doc today with
      | inl e => inl e
      | inr true => collect today docs' (announcements ++ [serialize_announcement doc])%list
      | inr false => collect today docs' announcements
      end
  end.

(** The documents on which the loop appends a record. *)
Definition listed (today : date) (doc : gmap string pyval) : bool :=
  match is_active_announcement doc today with
  | inr true => true
  | _ => false
  end.

(** The [else] branch of the sort is not reached: a record that
    [collect] lists has a string for end_date ([Raw_collect_keys]
    below). *)
Definition get_active_announcements (today : date) (docs : list (gmap string pyval))
    : exn + list (gmap string pyval) :=
  match collect today docs [] with
  | inl e => inl e
  | inr announcements =>
      if forallb (λ item, bool_decide (is_Some (end_date_key item))) announcements
      then inr (sort_by str_key announcements)
      else inl TypeError
  end.

(** A field value that yields no date and no error: absent or null,
    empty, or a string that [date.fromisoformat] rejects. *)
Definition no_date (value : pyval) : Prop :=
  value = PNone ∨ value = PStr "" ∨ ∃ s, value = PStr s ∧ fromisoformat s = None.

End Parse.

(** The value is a string or null. *)
Definition str_or_null (value : pyval) : Prop :=
  match value with
  | PInt _ => False
  | _ => True
  end.

(** Both date fields of the document are strings or null. *)
Definition dates_typed (doc : gmap string pyval) : Prop :=
  str_or_null (get doc "start_date") ∧ str_or_null (get doc "end_date").

End Raw.

(** Stored documents for the concrete checks: one with a number for
    end_date, one with an end_date that is no date. *)
Definition raw_ann9 : gmap string pyval :=
  list_to_map [
    ("_id", PStr "a9"); ("message", PStr "Gala"); ("end_date", PInt 20300101)
  ].

Definition raw_ann3 : gmap string pyval :=
  list_to_map [
    ("_id", PStr "a3"); ("message", PStr "Picnic"); ("end_date", PStr "someday")
  ].

(** ** Vocabulary of the statements *)

(** A caller is authorized when [require_teacher] has nothing to object:
    a non-empty username with a record in the teacher directory. *)
Definition authorized (s : db) (teacher_username : opt_str) : Prop :=
  ∃ username, teacher_username = Some username ∧ username ≠ ""
    ∧ is_Some (find_one (teachers_collection s) username).

(** The key of the sort in [get_active_announcements]. *)
Definition end_date_key (item : dict) : string :=
  or_str (get item "end_date") "9999-12-31".

Definition str_le (a b : string) : Prop := String.leb a b = true.

(** Ascending order of the sort keys. *)
Definition key_le {A} (key : A → string) (x y : A) : Prop :=
  str_le (key x) (key y).

(** The records [get_active_announcements] collects, before it sorts them. *)
Definition active_records (fromisoformat : string → option date)
    (today : date) (s : db) : list dict :=
  map serialize_announcement
    (List.filter (λ doc, is_active_announcement fromisoformat doc today)
       (announcements_collection s)).

(** A field value that yields no date: absent, empty, or a string that
    [date.fromisoformat] rejects. *)
Definition no_date (fromisoformat : string → option date) (value : opt_str) : Prop :=
  value = None ∨ value = Some "" ∨ ∃ s, value = Some s ∧ fromisoformat s = None.

(** The two per-field guards of [update_announcement] that come before
    the lookup: a supplied non-empty start_date parses, a supplied end_date
    parses. *)
Definition payload_dates_parse (fromisoformat : string → option date)
    (payload : AnnouncementUpdate.t) : bool :=
  match AnnouncementUpdate.start_date payload with
  | Some sd =>
      negb (truthy (Some sd)
            && negb (bool_decide (is_Some (parse_date fromisoformat (Some sd)))))
  | None => true
  end
  && match AnnouncementUpdate.end_date payload with
     | Some ed => bool_decide (is_Some (parse_date fromisoformat (Some ed)))
     | None => true
     end.

(** The [update_fields] that [update_announcement] hands to the store for a
    payload that passes the two guards. *)
Definition update_fields_of {SS : StrStrip} (now_iso : string)
    (payload : AnnouncementUpdate.t) : dict :=
  let fields : dict := {[ "updated_at" := Some now_iso ]} in
  let fields :=
    match AnnouncementUpdate.message payload with
    | Some m => <[ "message" := Some (str_strip m) ]> fields
    | None => fields
    end in
  let fields :=
    match AnnouncementUpdate.start_date payload with
    | Some sd => <[ "start_date" := or_None (Some sd) ]> fields
    | None => fields
    end in
  let fields :=
    match AnnouncementUpdate.end_date payload with
    | Some ed => <[ "end_date" := Some ed ]> fields
    | None => fields
    end in
  match AnnouncementUpdate.level payload with
  | Some l => <[ "level" := Some (normalize_level (Some l)) ]> fields
  | None => fields
  end.

(** The record [create_announcement] builds for a payload. *)
Definition new_record {SS : StrStrip} (announcement_id now_iso : string)
    (payload : AnnouncementCreate.t) : dict :=
  list_to_map [
    ("_id", Some announcement_id);
    ("message", Some (str_strip (AnnouncementCreate.message payload)));
    ("start_date", or_None (AnnouncementCreate.start_date payload));
    ("end_date", Some (AnnouncementCreate.end_date payload));
    ("level", Some (normalize_level (AnnouncementCreate.level payload)));
    ("created_at", Some now_iso);
    ("updated_at", Some now_iso)
  ].

(** The key of the sort in [get_all_announcements]. *)
Definition created_at_key (item : dict) : string :=
  or_str (get item "created_at") "".

(** The value a field has after a partial update: the supplied one when
    the payload carries the field, else the stored one. *)
Definition merged (supplied : option opt_str) (stored : opt_str) : opt_str :=
  match supplied with
  | Some v => v
  | None => stored
  end.

(** The start_date and end_date that [update_announcement] validates after
    the lookup. *)
Definition merged_start_date (payload : AnnouncementUpdate.t) (existing : dict) : opt_str :=
  merged ((λ sd, or_None (Some sd)) <$> AnnouncementUpdate.start_date payload)
         (get existing "start_date").

Definition merged_end_date (payload : AnnouncementUpdate.t) (existing : dict) : opt_str :=
  merged (Some <$> AnnouncementUpdate.end_date payload) (get existing "end_date").

(** The date window of a document is well formed: the end_date is a date,
    and a start_date that is a date does not come after it. *)
Definition valid_window (fromisoformat : string → option date) (doc : dict) : Prop :=
  ∃ e, parse_date fromisoformat (get doc "end_date") = Some e
       ∧ ∀ b, parse_date fromisoformat (get doc "start_date") = Some b →
              date_le b e = true.

(** The dates of a create payload that [create_announcement] rejects. *)
Definition create_dates_rejected (fromisoformat : string → option date)
    (payload : AnnouncementCreate.t) : Prop :=
  parse_date fromisoformat (Some (AnnouncementCreate.end_date payload)) = None
  ∨ ∃ b e, parse_date fromisoformat (AnnouncementCreate.start_date payload) = Some b
           ∧ parse_date fromisoformat (Some (AnnouncementCreate.end_date payload)) = Some e
           ∧ date_gt b e = true.

(** * Properties *)

(** ** Dates *)

Lemma date_cmp_antisym a b : date_cmp b a = CompOpp (date_cmp a b).
Proof.
  unfold date_cmp.
  rewrite (Z.compare_antisym (year a) (year b)),
          (Z.compare_antisym (month a) (month b)),
          (Z.compare_antisym (day a) (day b)).
  destruct (year a ?= year b); simpl; try reflexivity.
  destruct (month a ?= month b); reflexivity.
Qed.

Lemma date_gt_lt a b : date_gt a b = date_lt b a.
Proof.
  unfold date_gt, date_lt. rewrite (date_cmp_antisym a b).
  destruct (date_cmp a b); reflexivity.
Qed.

Lemma date_le_not_lt a b : date_le a b = negb (date_lt b a).
Proof.
  unfold date_le, date_lt. rewrite (date_cmp_antisym a b).
  destruct (date_cmp a b); reflexivity.
Qed.

Lemma date_le_lt_false a b : date_le a b = true → date_lt b a = false.
Proof. rewrite date_le_not_lt. destruct (date_lt b a); simpl; congruence. Qed.

(** ** The string order *)

Lemma ascii_compare_refl c : Ascii.compare c c = Eq.
Proof. unfold Ascii.compare. apply N.compare_refl. Qed.

Lemma ascii_compare_lt_trans a b c :
  Ascii.compare a b = Lt → Ascii.compare b c = Lt → Ascii.compare a c = Lt.
Proof.
  unfold Ascii.compare. rewrite !N.compare_lt_iff. apply N.lt_trans.
Qed.

Lemma string_compare_lt_trans s1 : ∀ s2 s3,
  String.compare s1 s2 = Lt → String.compare s2 s3 = Lt →
  String.compare s1 s3 = Lt.
Proof.
  induction s1 as [|a s1 IH]; intros [|b s2] [|c s3]; simpl; try congruence.
  destruct (Ascii.compare a b) eqn:Hab; try congruence;
    destruct (Ascii.compare b c) eqn:Hbc; try congruence; intros H1 H2.
  - apply Ascii.compare_eq_iff in Hab, Hbc. subst.
    rewrite ascii_compare_refl. eauto.
  - apply Ascii.compare_eq_iff in Hab. subst. now rewrite Hbc.
  - apply Ascii.compare_eq_iff in Hbc. subst. now rewrite Hab.
  - now rewrite (ascii_compare_lt_trans a b c).
Qed.

Lemma string_compare_refl s : String.compare s s = Eq.
Proof. induction s as [|a s IH]; simpl; [|rewrite ascii_compare_refl]; auto. Qed.

Lemma str_le_iff a b : str_le a b ↔ String.compare a b = Lt ∨ a = b.
Proof.
  unfold str_le, String.leb. split.
  - destruct (String.compare a b) eqn:H; try congruence; auto.
    apply String.compare_eq_iff in H. auto.
  - intros [->| ->]; [|rewrite string_compare_refl]; reflexivity.
Qed.

Lemma str_le_refl a : str_le a a.
Proof. apply str_le_iff. auto. Qed.

Lemma str_le_trans a b c : str_le a b → str_le b c → str_le a c.
Proof.
  rewrite !str_le_iff. intros [H1| ->] [H2| ->]; auto.
  left. eapply string_compare_lt_trans; eauto.
Qed.

Lemma ltb_str_le a b : String.ltb a b = true → str_le a b.
Proof.
  unfold String.ltb. intros H. apply str_le_iff.
  destruct (String.compare a b); try discriminate; auto.
Qed.

Lemma not_ltb_str_le a b : String.ltb a b = false → str_le b a.
Proof.
  unfold String.ltb, str_le, String.leb. rewrite (String.compare_antisym b a).
  destruct (String.compare a b); simpl; congruence.
Qed.

(** ** The stable sort *)

Section SortFacts.
Context {A : Type} (key : A → string).

Lemma insert_by_perm x l : Permutation (insert_by key x l) (x :: l).
Proof.
  induction l as [|y l IH]; simpl; [reflexivity|].
  destruct (String.ltb (key y) (key x)); [|reflexivity].
  rewrite IH. apply perm_swap.
Qed.

Lemma sort_by_perm l : Permutation (sort_by key l) l.
Proof.
  induction l as [|x l IH]; simpl; [reflexivity|].
  rewrite insert_by_perm. now constructor.
Qed.

Lemma insert_by_sorted x l :
  StronglySorted (key_le key) l → StronglySorted (key_le key) (insert_by key x l).
Proof.
  induction 1 as [|y l Hl IH Hy]; simpl.
  - repeat constructor.
  - destruct (String.ltb (key y) (key x)) eqn:Hlt.
    + constructor; [exact IH|].
      eapply Permutation_Forall; [symmetry; apply insert_by_perm|].
      constructor; [now apply ltb_str_le | exact Hy].
    + apply not_ltb_str_le in Hlt.
      constructor; [now constructor|].
      constructor; [exact Hlt|].
      eapply Forall_impl; [exact Hy|].
      intros z Hz. unfold key_le in *. eapply str_le_trans; eauto.
Qed.

Lemma sort_by_sorted l : StronglySorted (key_le key) (sort_by key l).
Proof.
  induction l as [|x l IH]; simpl; [constructor | now apply insert_by_sorted].
Qed.

Lemma sort_by_In x l : In x (sort_by key l) ↔ In x l.
Proof.
  split; apply Permutation_in; [|symmetry]; apply sort_by_perm.
Qed.

(** Stability: records with equal keys keep their relative order. *)
Lemma insert_by_filter (p : A → bool) x l :
  (∀ y, In y l → p y = true → p x = true → key y = key x) →
  List.filter p (insert_by key x l) = List.filter p (x :: l).
Proof.
  induction l as [|y l IH]; intros Heq; simpl; [reflexivity|].
  destruct (String.ltb (key y) (key x)) eqn:Hlt; [|reflexivity].
  simpl. rewrite IH by (intros; apply Heq; simpl; auto). simpl.
  destruct (p x) eqn:Hx, (p y) eqn:Hy; try reflexivity.
  exfalso. rewrite (Heq y) in Hlt by (simpl; auto).
  unfold String.ltb in Hlt. now rewrite string_compare_refl in Hlt.
Qed.

Lemma sort_by_stable k l :
  List.filter (λ x, String.eqb (key x) k) (sort_by key l)
  = List.filter (λ x, String.eqb (key x) k) l.
Proof.
  induction l as [|x l IH]; simpl; [reflexivity|].
  rewrite insert_by_filter.
  - simpl. now rewrite IH.
  - intros y _ Hy Hx. apply String.eqb_eq in Hy, Hx. congruence.
Qed.
End SortFacts.

(** ** The document store *)

Lemma has_id_get id (doc : dict) : has_id id doc = true ↔ get doc "_id" = Some id.
Proof.
  unfold has_id, get. rewrite bool_decide_eq_true.
  destruct (doc !! "_id") as [v|]; split; congruence.
Qed.

Lemma find_one_Some (c : collection) id doc :
  find_one c id = Some doc → In doc c ∧ get doc "_id" = Some id.
Proof.
  intros H. apply find_some in H as [Hin Hid]. now rewrite <- has_id_get.
Qed.

Lemma find_one_None (c : collection) id :
  find_one c id = None ↔ ∀ doc, In doc c → get doc "_id" ≠ Some id.
Proof.
  unfold find_one. split.
  - intros H doc Hin Hid. apply has_id_get in Hid.
    pose proof (find_none _ _ H doc Hin). congruence.
  - intros H. induction c as [|d c IH]; simpl; [reflexivity|].
    destruct (has_id id d) eqn:Hd.
    + apply has_id_get in Hd. destruct (H d); simpl; auto.
    + apply IH. intros doc Hin. apply H. simpl; auto.
Qed.

(** A document found by its [_id] is a non-empty dict, hence truthy. *)
Lemma found_truthy (c : collection) id doc :
  find_one c id = Some doc → truthy_doc (Some doc) = true.
Proof.
  intros H. apply find_one_Some in H as [_ H]. simpl.
  apply negb_true_iff, bool_decide_eq_false. intros ->.
  unfold get in H. now rewrite lookup_empty in H.
Qed.

Lemma find_one_ids (c : collection) id :
  find_one c id = None ↔ Some (Some id) ∉ ids c.
Proof.
  rewrite find_one_None. unfold ids. rewrite list_elem_of_fmap. split.
  - intros H (doc & Hid & Hin). apply (H doc); [now apply list_elem_of_In|].
    unfold get. now rewrite <- Hid.
  - intros H doc Hin Hid. apply H. exists doc. split; [|now apply list_elem_of_In].
    unfold get in Hid. destruct (doc !! "_id"); congruence.
Qed.

Lemma delete_one_absent (c : collection) id :
  find_one c id = None → delete_one c id = (c, 0).
Proof.
  unfold find_one. induction c as [|d c IH]; simpl; [reflexivity|].
  destruct (has_id id d); [discriminate|]. intros H. now rewrite IH.
Qed.

Lemma delete_one_present (c : collection) id doc :
  find_one c id = Some doc →
  ∃ c', delete_one c id = (c', 1) ∧ (unique_ids c → find_one c' id = None)
        ∧ ids c' `sublist_of` ids c.
Proof.
  unfold find_one, unique_ids. induction c as [|d c IH]; simpl; [discriminate|].
  destruct (has_id id d) eqn:Hd.
  - intros _. exists c. split; [reflexivity|]. split.
    + intros Hu. apply NoDup_cons in Hu as [Hn _].
      apply find_one_ids. apply has_id_get in Hd.
      unfold get in Hd. destruct (d !! "_id") as [v|]; congruence.
    + now apply sublist_cons.
  - intros H. destruct (IH H) as (c' & -> & Hgone & Hsub).
    exists (d :: c'). split; [reflexivity|]. split.
    + intros Hu. apply NoDup_cons in Hu as [_ Hu]. simpl. rewrite Hd.
      now apply Hgone.
    + now apply sublist_skip.
Qed.

Lemma update_one_find (c : collection) id (fields doc : dict) :
  fields !! "_id" = None → find_one c id = Some doc →
  find_one (update_one c id fields) id = Some (fields ∪ doc).
Proof.
  intros Hf. unfold find_one. induction c as [|d c IH]; simpl; [discriminate|].
  destruct (has_id id d) eqn:Hd; simpl.
  - intros [= ->].
    assert (has_id id (fields ∪ doc) = true) as ->; [|reflexivity].
    unfold has_id in *. apply bool_decide_eq_true in Hd.
    apply bool_decide_eq_true. now rewrite lookup_union_r.
  - rewrite Hd. apply IH.
Qed.

Lemma update_one_ids (c : collection) id (fields : dict) :
  fields !! "_id" = None → ids (update_one c id fields) = ids c.
Proof.
  intros Hf. unfold ids. induction c as [|d c IH]; cbn [update_one]; [reflexivity|].
  destruct (has_id id d); rewrite !fmap_cons; [|now rewrite IH].
  now rewrite lookup_union_r.
Qed.

Lemma insert_one_Some (c c' : collection) (record : dict) :
  insert_one c record = Some c' ↔
  ((record !! "_id") ∉ ids c) ∧ c' = (c ++ [record])%list.
Proof.
  unfold insert_one.
  destruct (existsb _ c) eqn:He.
  - split; [discriminate|]. intros [Hn _]. exfalso. apply Hn.
    apply existsb_exists in He as (d & Hin & Hd).
    apply bool_decide_eq_true in Hd. unfold ids. apply list_elem_of_fmap.
    exists d. split; [congruence | now apply list_elem_of_In].
  - split; [|intros [_ ->]; reflexivity]. intros [= <-]. split; [|reflexivity].
    unfold ids. rewrite list_elem_of_fmap. intros (d & Hd & Hin).
    apply list_elem_of_In in Hin.
    assert (existsb (λ doc : dict, bool_decide (doc !! "_id" = record !! "_id")) c = true)
      as Hex; [|congruence].
    apply existsb_exists. exists d. split; [exact Hin|].
    now apply bool_decide_eq_true.
Qed.

(** ** Running the monad *)

Lemma bind_run {A B} (m : M A) (f : A → M B) s :
  (m ≫= f) s = match m s with
               | (inr a, s') => f a s'
               | (inl e, s') => (inl e, s')
               end.
Proof. reflexivity. Qed.

(** ** The teacher gate *)

Lemma require_teacher_authorized s teacher_username :
  authorized s teacher_username → require_teacher teacher_username s = (inr (), s).
Proof.
  intros (u & -> & Hne & [t Ht]). unfold require_teacher.
  destruct u as [|a u]; [congruence|].
  rewrite bind_run. unfold reads. rewrite Ht.
  now rewrite (found_truthy _ _ _ Ht).
Qed.

Lemma require_teacher_unauthorized s teacher_username :
  ¬ authorized s teacher_username →
  ∃ e, require_teacher teacher_username s = (inl e, s) ∧ Unauthorized e.
Proof.
  intros Hn. unfold require_teacher.
  destruct teacher_username as [[|a u]|]; try (eexists; split; reflexivity).
  rewrite bind_run. unfold reads.
  destruct (find_one (teachers_collection s) (String a u)) as [t|] eqn:Ht.
  - destruct Hn. exists (String a u). eauto.
  - eexists; split; reflexivity.
Qed.

(** [require_teacher] never writes, whatever it answers. *)
Lemma require_teacher_pure s teacher_username :
  (require_teacher teacher_username s).2 = s.
Proof.
  unfold require_teacher.
  destruct teacher_username as [[|a u]|]; try reflexivity.
  rewrite bind_run. unfold reads.
  destruct (negb (truthy_doc _)); reflexivity.
Qed.

(** ** Serialisation *)

Ltac lookup_literal :=
  unfold get, get_default, serialize_announcement; cbn [list_to_map foldr fst snd uncurry];
  repeat (rewrite lookup_insert_ne by discriminate);
  try rewrite lookup_insert_eq; try rewrite lookup_empty; try reflexivity.

Lemma serialize_id (doc : dict) : get (serialize_announcement doc) "id" = get doc "_id".
Proof. lookup_literal. Qed.

Lemma serialize_message (doc : dict) :
  get (serialize_announcement doc) "message" = get doc "message".
Proof. lookup_literal. Qed.

Lemma serialize_start_date (doc : dict) :
  get (serialize_announcement doc) "start_date" = get doc "start_date".
Proof. lookup_literal. Qed.

Lemma serialize_end_date (doc : dict) :
  get (serialize_announcement doc) "end_date" = get doc "end_date".
Proof. lookup_literal. Qed.

Lemma serialize_level (doc : dict) :
  get (serialize_announcement doc) "level" = get_default doc "level" (Some "info").
Proof. lookup_literal. Qed.

Lemma serialize_created_at (doc : dict) :
  get (serialize_announcement doc) "created_at" = get doc "created_at".
Proof. lookup_literal. Qed.

Lemma serialize_updated_at (doc : dict) :
  get (serialize_announcement doc) "updated_at" = get doc "updated_at".
Proof. lookup_literal. Qed.

(** ** The active window *)

Section Properties.

Variable fromisoformat : string → option date.

Lemma parse_date_None value :
  parse_date fromisoformat value = None ↔ no_date fromisoformat value.
Proof.
  unfold no_date. destruct value as [[|a s]|]; simpl.
  - split; auto.
  - split.
    + intros H. right. right. eauto.
    + intros [H|[H|(s' & H1 & H)]]; congruence.
  - split; auto.
Qed.

Lemma parse_date_Some value d :
  parse_date fromisoformat value = Some d ↔
  ∃ s, value = Some s ∧ s ≠ "" ∧ fromisoformat s = Some d.
Proof.
  destruct value as [[|a s]|]; simpl.
  - split; [discriminate|]. intros (s & H1 & Hne & _). congruence.
  - split.
    + intros H. exists (String a s). repeat split; [discriminate | exact H].
    + intros (s' & H1 & _ & H). congruence.
  - split; [discriminate|]. intros (s' & H1 & _). discriminate.
Qed.

(** [is_active_announcement] as a condition on the two parsed dates. *)
Lemma is_active_announcement_iff (doc : dict) today :
  is_active_announcement fromisoformat doc today = true ↔
  (∃ e, parse_date fromisoformat (get doc "end_date") = Some e ∧ date_le today e = true)
  ∧ (parse_date fromisoformat (get doc "start_date") = None
     ∨ ∃ s, parse_date fromisoformat (get doc "start_date") = Some s
            ∧ date_le s today = true).
Proof.
  unfold is_active_announcement.
  destruct (parse_date fromisoformat (get doc "end_date")) as [e|];
    [|split; [discriminate | intros [(e & [=] & _) _]]].
  destruct (parse_date fromisoformat (get doc "start_date")) as [s|]; cbn [and_then].
  - destruct (date_lt today s) eqn:Hlt; split.
    + discriminate.
    + intros [_ [H|(s' & H1 & H2)]]; [discriminate|]. injection H1 as <-.
      rewrite date_le_not_lt, Hlt in H2. discriminate.
    + intros H. split; [eauto|]. right. exists s. split; [reflexivity|].
      now rewrite date_le_not_lt, Hlt.
    + intros [(e' & H1 & H) _]. injection H1 as <-. exact H.
  - split; [intros H; split; eauto|].
    intros [(e' & H1 & H) _]. injection H1 as <-. exact H.
Qed.

Lemma is_active_announcement_serialize (doc : dict) today :
  is_active_announcement fromisoformat (serialize_announcement doc) today
  = is_active_announcement fromisoformat doc today.
Proof.
  unfold is_active_announcement.
  now rewrite serialize_start_date, serialize_end_date.
Qed.

Lemma append_loop {A B} (p : A → bool) (g : A → B) (l : list A) : ∀ acc,
  fold_left (λ acc x, if p x then (acc ++ [g x])%list else acc) l acc
  = (acc ++ map g (List.filter p l))%list.
Proof.
  induction l as [|x l IH]; intros acc; simpl; [now rewrite app_nil_r|].
  rewrite IH. destruct (p x); simpl; [|reflexivity].
  now rewrite <- app_assoc.
Qed.

Lemma get_active_announcements_run today s :
  get_active_announcements fromisoformat today s
  = (inr (sort_by end_date_key (active_records fromisoformat today s)), s).
Proof.
  unfold get_active_announcements. rewrite bind_run. unfold reads, mret, M_ret.
  now rewrite append_loop.
Qed.

Lemma active_records_In today s (doc : dict) :
  In doc (announcements_collection s) →
  (In (serialize_announcement doc) (active_records fromisoformat today s)
   ↔ is_active_announcement fromisoformat doc today = true).
Proof.
  intros Hin. unfold active_records. rewrite in_map_iff. split.
  - intros (doc' & Heq & Hin'). apply filter_In in Hin' as [_ Hact].
    rewrite <- is_active_announcement_serialize, <- Heq.
    now rewrite is_active_announcement_serialize.
  - intros Hact. exists doc. split; [reflexivity|]. now apply filter_In.
Qed.

Lemma active_records_active today s item :
  In item (active_records fromisoformat today s) →
  is_active_announcement fromisoformat item today = true.
Proof.
  unfold active_records. rewrite in_map_iff. intros (doc & <- & Hin).
  apply filter_In in Hin as [_ Hact]. now rewrite is_active_announcement_serialize.
Qed.

(** C3 (amended). For every stored record and every current date, the
    list-active operation includes the record if and only if its end_date
    parses to a date on or after today and its start_date is absent, empty
    or not a parseable date, or parses to a date on or before today; in
    particular every record whose end_date is before today is excluded. *)
Theorem active_list_membership today s (doc : dict) :
  In doc (announcements_collection s) →
  ∃ l, get_active_announcements fromisoformat today s = (inr l, s)
    ∧ (In (serialize_announcement doc) l ↔
         (∃ e, parse_date fromisoformat (get doc "end_date") = Some e
               ∧ date_le today e = true)
         ∧ (no_date fromisoformat (get doc "start_date")
            ∨ ∃ b, parse_date fromisoformat (get doc "start_date") = Some b
                   ∧ date_le b today = true))
    ∧ ((∃ e, parse_date fromisoformat (get doc "end_date") = Some e
             ∧ date_lt e today = true)
       → ¬ In (serialize_announcement doc) l).
Proof.
  intros Hin. eexists. split; [apply get_active_announcements_run|].
  rewrite sort_by_In, (active_records_In _ _ _ Hin), is_active_announcement_iff,
    parse_date_None.
  split; [reflexivity|].
  intros (e & He & Hlt) [(e' & He' & Hle) _].
  rewrite He in He'. injection He' as <-.
  apply date_le_lt_false in Hle. congruence.
Qed.

(** C6. The output of the list-active operation is sorted in ascending
    order of the end_date field, the sort key of a record without an
    end_date being the sentinel "9999-12-31"; the output holds exactly the
    serialized active records, each of which has an end_date. *)
Theorem active_list_sorted today s :
  ∃ l, get_active_announcements fromisoformat today s = (inr l, s)
    ∧ StronglySorted (key_le end_date_key) l
    ∧ Permutation l (active_records fromisoformat today s)
    ∧ (∀ item, In item l → get item "end_date" = Some (end_date_key item))
    ∧ (∀ item : dict, truthy (get item "end_date") = false →
         end_date_key item = "9999-12-31").
Proof.
  eexists. split; [apply get_active_announcements_run|].
  split; [apply (sort_by_sorted end_date_key)|].
  split; [apply sort_by_perm|]. split.
  - intros item Hin. apply sort_by_In, active_records_active in Hin.
    apply is_active_announcement_iff in Hin as [(e & He & _) _].
    apply parse_date_Some in He as (str & Hstr & Hne & _).
    unfold end_date_key. rewrite Hstr. simpl.
    destruct str; [congruence | reflexivity].
  - intros item. unfold end_date_key, truthy, or_str.
    destruct (get item "end_date") as [str|]; [|reflexivity].
    destruct (String.eqb str ""); [reflexivity | discriminate].
Qed.

End Properties.

(** ** Concrete checks, with the [YYYY-MM-DD] parser *)

Lemma active_list_membership_witness :
  In ann1 (announcements_collection db3)
  ∧ ∃ l, get_active_announcements date_fromisoformat today0 db3 = (inr l, db3)
    ∧ (In (serialize_announcement ann1) l ↔
         (∃ e, parse_date date_fromisoformat (get ann1 "end_date") = Some e
               ∧ date_le today0 e = true)
         ∧ (no_date date_fromisoformat (get ann1 "start_date")
            ∨ ∃ b, parse_date date_fromisoformat (get ann1 "start_date") = Some b
                   ∧ date_le b today0 = true))
    ∧ ((∃ e, parse_date date_fromisoformat (get ann1 "end_date") = Some e
             ∧ date_lt e today0 = true)
       → ¬ In (serialize_announcement ann1) l).
Proof.
  split; [simpl; auto|].
  apply (active_list_membership date_fromisoformat today0 db3 ann1).
  simpl; auto.
Defined.

(** The claim as worded fails on a record whose start_date is present but
    is not a date: it is listed although its start_date is neither absent
    nor a date on or before today. *)
Lemma active_list_unparseable_start_listed :
  ¬ (∀ today s (doc : dict), In doc (announcements_collection s) →
       ∀ l, get_active_announcements date_fromisoformat today s = (inr l, s) →
         (In (serialize_announcement doc) l ↔
            (∃ e, parse_date date_fromisoformat (get doc "end_date") = Some e
                  ∧ date_le today e = true)
            ∧ (get doc "start_date" = None
               ∨ ∃ b, parse_date date_fromisoformat (get doc "start_date") = Some b
                      ∧ date_le b today = true))).
Proof.
  intros H.
  specialize (H today0 db2 ann2 (or_introl eq_refl) [serialize_announcement ann2] eq_refl).
  destruct H as [H _]. destruct (H (or_introl eq_refl)) as [_ [Habs|(b & Hb & _)]].
  - vm_compute in Habs. discriminate Habs.
  - vm_compute in Hb. discriminate Hb.
Qed.

(** ** List-active over stored documents of any kind *)

Ltac raw_field :=
  unfold Raw.get, Raw.get_default, Raw.serialize_announcement;
  cbn [list_to_map foldr fst snd uncurry];
  repeat (rewrite lookup_insert_ne by discriminate);
  now rewrite lookup_insert_eq.

Lemma Raw_serialize_start_date (doc : gmap string pyval) :
  Raw.get (Raw.serialize_announcement doc) "start_date" = Raw.get doc "start_date".
Proof. raw_field. Qed.

Lemma Raw_serialize_end_date (doc : gmap string pyval) :
  Raw.get (Raw.serialize_announcement doc) "end_date" = Raw.get doc "end_date".
Proof. raw_field. Qed.

Lemma sort_by_map {A B} (g : A → B) (key : A → string) (key' : B → string) l :
  (∀ x, key' (g x) = key x) →
  sort_by key' (map g l) = map g (sort_by key l).
Proof.
  intros Hkey. induction l as [|x l IH]; simpl; [reflexivity|]. rewrite IH.
  generalize (sort_by key l). intros k. induction k as [|y k IHk]; simpl; [reflexivity|].
  rewrite !Hkey. destruct (String.ltb (key y) (key x)); simpl; [now rewrite IHk | reflexivity].
Qed.

Section RawProperties.

Variable fromisoformat : string → option date.

Lemma Raw_is_active_serialize (doc : gmap string pyval) today :
  Raw.is_active_announcement fromisoformat (Raw.serialize_announcement doc) today
  = Raw.is_active_announcement fromisoformat doc today.
Proof.
  unfold Raw.is_active_announcement.
  now rewrite Raw_serialize_start_date, Raw_serialize_end_date.
Qed.

(** [is_active_announcement] raises exactly on a document that holds a
    value of another kind than string or null in a date field. *)
Lemma Raw_is_active_typed (doc : gmap string pyval) today :
  Raw.dates_typed doc →
  ∃ b, Raw.is_active_announcement fromisoformat doc today = inr b.
Proof.
  unfold Raw.dates_typed, Raw.is_active_announcement. intros [Hs He].
  destruct (Raw.get doc "start_date") as [|[|c s]|n]; try contradiction;
    destruct (Raw.get doc "end_date") as [|[|c' s']|n']; try contradiction;
    cbn [Raw.parse_date]; eauto.
Qed.

Lemma Raw_is_active_untyped (doc : gmap string pyval) today :
  ¬ Raw.dates_typed doc →
  Raw.is_active_announcement fromisoformat doc today = inl Raw.TypeError.
Proof.
  unfold Raw.dates_typed, Raw.is_active_announcement. intros Hn.
  destruct (Raw.get doc "start_date") as [|[|c s]|n]; [| | |reflexivity];
    (destruct (Raw.get doc "end_date") as [|[|c' s']|n'];
       [| | |reflexivity]; exfalso; apply Hn; split; exact I).
Qed.

Lemma Raw_dates_typed_dec (doc : gmap string pyval) :
  Raw.dates_typed doc ∨ ¬ Raw.dates_typed doc.
Proof.
  unfold Raw.dates_typed.
  destruct (Raw.get doc "start_date") as [| |n]; [| |right; intros [[] _]];
    (destruct (Raw.get doc "end_date") as [| |n']; [| |right; intros [_ []]]);
    left; split; exact I.
Qed.

(** A document that is active has a non-empty string for end_date. *)
Lemma Raw_active_end_date (doc : gmap string pyval) today :
  Raw.is_active_announcement fromisoformat doc today = inr true →
  ∃ c s, Raw.get doc "end_date" = PStr (String c s).
Proof.
  unfold Raw.is_active_announcement.
  destruct (Raw.parse_date fromisoformat (Raw.get doc "start_date")); [discriminate|].
  destruct (Raw.get doc "end_date") as [|[|c s]|n]; cbn [Raw.parse_date];
    try discriminate. eauto.
Qed.

Lemma Raw_collect_typed today docs : ∀ acc,
  Forall Raw.dates_typed docs →
  Raw.collect fromisoformat today docs acc
  = inr (acc ++ map Raw.serialize_announcement
                  (List.filter (Raw.listed fromisoformat today) docs))%list.
Proof.
  induction docs as [|d docs IH]; intros acc Hall; simpl.
  - now rewrite app_nil_r.
  - apply Forall_cons in Hall as [Hd Hall]. unfold Raw.listed at 1.
    destruct (Raw_is_active_typed d today Hd) as [[|] ->]; rewrite (IH _ Hall);
      [simpl; now rewrite <- app_assoc | reflexivity].
Qed.

Lemma Raw_collect_untyped today docs : ∀ acc,
  (∃ d, In d docs ∧ ¬ Raw.dates_typed d) →
  Raw.collect fromisoformat today docs acc = inl Raw.TypeError.
Proof.
  induction docs as [|d docs IH]; intros acc (d' & Hin & Hn); [destruct Hin|].
  simpl. destruct (Raw_dates_typed_dec d) as [Hd|Hd].
  - destruct Hin as [->|Hin]; [contradiction|].
    destruct (Raw_is_active_typed d today Hd) as [[|] ->]; apply IH; eauto.
  - now rewrite (Raw_is_active_untyped d today Hd).
Qed.

(** Every record the loop lists has a string sort key. *)
Lemma Raw_collect_keys today docs :
  forallb (λ item, bool_decide (is_Some (Raw.end_date_key item)))
    (map Raw.serialize_announcement (List.filter (Raw.listed fromisoformat today) docs)) = true.
Proof.
  apply forallb_forall. intros item Hin.
  apply in_map_iff in Hin as (d & <- & Hd). apply filter_In in Hd as [_ Hd].
  unfold Raw.listed in Hd.
  destruct (Raw.is_active_announcement fromisoformat d today) as [|[|]] eqn:Hact;
    try discriminate.
  apply Raw_active_end_date in Hact as (c & str & Hend).
  apply bool_decide_eq_true. unfold Raw.end_date_key.
  rewrite Raw_serialize_end_date, Hend. eauto.
Qed.

(** C10 (amended). For every stored document whose end_date field is
    absent, null, empty or a string that is not a parseable date, and whose
    start_date is absent, null or a string, the active predicate returns
    false for every current date. When every start_date and end_date in
    the store is absent, null or a string, list-active raises no error and
    excludes such a document; when some stored start_date or end_date is a
    value of another kind, list-active fails with an uncaught TypeError. *)
Theorem stored_malformed_end_date today docs (doc : gmap string pyval) :
  Raw.str_or_null (Raw.get doc "start_date") →
  Raw.no_date fromisoformat (Raw.get doc "end_date") →
  Raw.is_active_announcement fromisoformat doc today = inr false
  ∧ (Forall Raw.dates_typed docs →
     ∃ l, Raw.get_active_announcements fromisoformat today docs = inr l
        ∧ ¬ In (Raw.serialize_announcement doc) l)
  ∧ ((∃ d, In d docs ∧ ¬ Raw.dates_typed d) →
     Raw.get_active_announcements fromisoformat today docs = inl Raw.TypeError).
Proof.
  intros Hstart Hend.
  assert (Raw.is_active_announcement fromisoformat doc today = inr false) as Hoff.
  { unfold Raw.is_active_announcement.
    destruct (Raw.get doc "start_date") as [|[|c s]|n]; try contradiction;
      destruct Hend as [->|[->|(s' & -> & Hs')]]; cbn [Raw.parse_date];
      try reflexivity; destruct s'; try reflexivity; now rewrite Hs'. }
  split; [exact Hoff|]. split.
  - intros Hall. unfold Raw.get_active_announcements.
    rewrite (Raw_collect_typed today docs [] Hall). cbn [app].
    rewrite Raw_collect_keys. eexists. split; [reflexivity|].
    intros Hin. apply sort_by_In, in_map_iff in Hin as (d & Heq & Hd).
    apply filter_In in Hd as [_ Hd]. unfold Raw.listed in Hd.
    rewrite <- Raw_is_active_serialize, Heq, Raw_is_active_serialize, Hoff in Hd.
    discriminate.
  - intros Hbad. unfold Raw.get_active_announcements.
    now rewrite (Raw_collect_untyped today docs [] Hbad).
Qed.

(** On the documents the handlers write, the read path over stored
    documents is the one modelled over [dict]. *)
Lemma Raw_get_embed (doc : dict) key : Raw.get (embed doc) key = of_opt (get doc key).
Proof.
  unfold Raw.get, get, embed. rewrite lookup_fmap.
  now destruct (doc !! key).
Qed.

Lemma Raw_parse_date_embed value :
  Raw.parse_date fromisoformat (of_opt value) = inr (parse_date fromisoformat value).
Proof. destruct value as [[|c s]|]; reflexivity. Qed.

Lemma Raw_is_active_embed (doc : dict) today :
  Raw.is_active_announcement fromisoformat (embed doc) today
  = inr (is_active_announcement fromisoformat doc today).
Proof.
  unfold Raw.is_active_announcement, is_active_announcement.
  now rewrite !Raw_get_embed, !Raw_parse_date_embed.
Qed.

Lemma Raw_serialize_embed (doc : dict) :
  Raw.serialize_announcement (embed doc) = embed (serialize_announcement doc).
Proof.
  unfold Raw.serialize_announcement, serialize_announcement, embed at 8.
  cbn [list_to_map foldr fst snd uncurry].
  rewrite !fmap_insert, fmap_empty, !Raw_get_embed.
  unfold Raw.get_default, get_default, embed. rewrite lookup_fmap.
  now destruct (doc !! "level").
Qed.

Lemma Raw_str_key_embed (item : dict) : Raw.str_key (embed item) = end_date_key item.
Proof.
  unfold Raw.str_key, Raw.end_date_key, end_date_key, or_str.
  rewrite Raw_get_embed. now destruct (get item "end_date").
Qed.

Lemma Raw_dates_typed_embed (doc : dict) : Raw.dates_typed (embed doc).
Proof.
  unfold Raw.dates_typed. rewrite !Raw_get_embed.
  split; [destruct (get doc "start_date") | destruct (get doc "end_date")]; exact I.
Qed.

Lemma Raw_get_active_embed today s :
  Raw.get_active_announcements fromisoformat today (map embed (announcements_collection s))
  = inr (map embed (sort_by end_date_key (active_records fromisoformat today s))).
Proof.
  unfold Raw.get_active_announcements.
  rewrite Raw_collect_typed
    by (apply List.Forall_forall; intros d Hd; apply in_map_iff in Hd as (x & <- & _);
        apply Raw_dates_typed_embed).
  cbn [app]. rewrite Raw_collect_keys. f_equal.
  rewrite <- (sort_by_map embed end_date_key Raw.str_key) by apply Raw_str_key_embed.
  f_equal. unfold active_records.
  induction (announcements_collection s) as [|d l IH]; simpl; [reflexivity|].
  unfold Raw.listed at 1. rewrite Raw_is_active_embed.
  destruct (is_active_announcement fromisoformat d today); simpl;
    [now rewrite Raw_serialize_embed, IH | exact IH].
Qed.

End RawProperties.

Lemma stored_malformed_end_date_witness :
  Raw.is_active_announcement date_fromisoformat raw_ann3 today0 = inr false
  ∧ ∃ l, Raw.get_active_announcements date_fromisoformat today0
           [embed ann1; raw_ann3] = inr l
       ∧ ¬ In (Raw.serialize_announcement raw_ann3) l.
Proof.
  destruct (stored_malformed_end_date date_fromisoformat today0
              [embed ann1; raw_ann3] raw_ann3) as (Hoff & Hlist & _).
  - exact I.
  - right. right. exists "someday". split; reflexivity.
  - split; [exact Hoff|]. apply Hlist.
    repeat constructor.
Defined.

(** The claim as worded fails on a stored end_date that is not a string:
    such a value is no parseable date, and on it the active predicate does
    not return false but raises, and so does list-active. *)
Lemma list_active_raises_on_non_str_end_date :
  ¬ (∀ today docs (doc : gmap string pyval), In doc docs →
       (Raw.no_date date_fromisoformat (Raw.get doc "end_date")
        ∨ ∃ n, Raw.get doc "end_date" = PInt n) →
       Raw.is_active_announcement date_fromisoformat doc today = inr false
       ∧ ∃ l, Raw.get_active_announcements date_fromisoformat today docs = inr l
            ∧ ¬ In (Raw.serialize_announcement doc) l).
Proof.
  intros H.
  destruct (H today0 [embed ann1; raw_ann9] raw_ann9) as [Hoff _].
  - right. now left.
  - right. exists 20300101. reflexivity.
  - vm_compute in Hoff. discriminate Hoff.
Qed.

(** ** The request handlers *)

Lemma not_authorized_iff s teacher_username :
  ¬ authorized s teacher_username ↔
  teacher_username = None ∨ teacher_username = Some ""
  ∨ ∃ username, teacher_username = Some username
                ∧ find_one (teachers_collection s) username = None.
Proof.
  unfold authorized. split.
  - intros Hn. destruct teacher_username as [u|]; [|auto].
    destruct (decide (u = "")) as [->|Hne]; [auto|].
    right. right. exists u. split; [reflexivity|].
    destruct (find_one (teachers_collection s) u) eqn:Hf; [|reflexivity].
    destruct Hn. exists u. eauto.
  - intros [->|[->|(u & -> & Hf)]] (u' & Hu & Hne & Hsome).
    + discriminate.
    + injection Hu as <-. congruence.
    + injection Hu as <-. rewrite Hf in Hsome. now destruct Hsome.
Qed.

Lemma delete_announcement_run id teacher_username s :
  authorized s teacher_username →
  delete_announcement id teacher_username s
  = match find_one (announcements_collection s) id with
    | None => (inl (mkHTTPException 404 "Announcement not found"), s)
    | Some _ =>
        (inr {[ "message" := Some "Announcement deleted" ]},
         mkdb (delete_one (announcements_collection s) id).1 (teachers_collection s))
    end.
Proof.
  intros Hauth. unfold delete_announcement.
  rewrite bind_run, (require_teacher_authorized _ _ Hauth), bind_run.
  unfold reads.
  destruct (find_one (announcements_collection s) id) as [doc|] eqn:Hf.
  - destruct (delete_one_present _ _ _ Hf) as (c' & -> & _). reflexivity.
  - rewrite (delete_one_absent _ _ Hf). now destruct s.
Qed.

Ltac payload_cases payload :=
  destruct payload as [[?m|] [?sd|] [?ed|] [?l|]];
  cbn [AnnouncementUpdate.message AnnouncementUpdate.start_date
       AnnouncementUpdate.end_date AnnouncementUpdate.level].

Lemma update_fields_of_id {SS : StrStrip} now_iso payload :
  update_fields_of now_iso payload !! "_id" = None.
Proof.
  unfold update_fields_of. payload_cases payload; cbv zeta;
    repeat (rewrite lookup_insert_ne by discriminate);
    now rewrite lookup_singleton_ne.
Qed.

Lemma find_one_snoc (c : collection) id (record : dict) :
  find_one c id = None → has_id id record = true →
  find_one (c ++ [record]) id = Some record.
Proof.
  unfold find_one. intros Hc Hr. induction c as [|d c IH]; simpl in *.
  - now rewrite Hr.
  - destruct (has_id id d); [discriminate | auto].
Qed.

Section Requests.

Variable fromisoformat : string → option date.
Context {SS : StrStrip}.

(** What [update_announcement] computes for an authorized caller. *)
Lemma update_announcement_run now_iso id payload teacher_username s :
  authorized s teacher_username →
  update_announcement fromisoformat now_iso id payload teacher_username s
  = if payload_dates_parse fromisoformat payload then
      match find_one (announcements_collection s) id with
      | None => (inl (mkHTTPException 404 "Announcement not found"), s)
      | Some existing =>
          let fields := update_fields_of now_iso payload in
          match parse_date fromisoformat
                  (get_default fields "end_date" (get existing "end_date")) with
          | None => (inl (mkHTTPException 400 "Invalid request"), s)
          | Some e =>
              if and_then
                   (parse_date fromisoformat
                      (get_default fields "start_date" (get existing "start_date")))
                   (λ b, date_gt b e)
              then (inl (mkHTTPException 400 "Invalid request"), s)
              else (inr (serialize_announcement (fields ∪ existing)),
                    mkdb (update_one (announcements_collection s) id fields)
                         (teachers_collection s))
          end
      end
    else (inl (mkHTTPException 400 "Invalid request"), s).
Proof.
  intros Hauth. unfold update_announcement.
  rewrite bind_run, (require_teacher_authorized _ _ Hauth).
  pose proof (update_fields_of_id now_iso payload) as Hid.
  pose proof (λ doc, update_one_find (announcements_collection s) id
                       (update_fields_of now_iso payload) doc Hid) as Hupd.
  clear Hid.
  unfold payload_dates_parse, update_fields_of in *.
  payload_cases payload;
    cbn [AnnouncementUpdate.message AnnouncementUpdate.start_date
         AnnouncementUpdate.end_date AnnouncementUpdate.level] in *;
    cbv zeta in *.
  all: cbv [mbind M_bind mret M_ret raise reads set_announcements]; cbv beta iota.
  all: repeat
    (match goal with
     | |- context [truthy (Some ?x) && ?b] =>
         destruct (truthy (Some x) && b); cbn [negb andb]
     | |- context [bool_decide (is_Some (parse_date fromisoformat (Some ?x)))] =>
         destruct (parse_date fromisoformat (Some x)) eqn:?;
         [rewrite bool_decide_eq_true_2 by eauto
         |rewrite bool_decide_eq_false_2 by (intros [? [=]])]
     | |- context [find_one (announcements_collection ?s0) ?i] =>
         let Hf := fresh "Hf" in
         destruct (find_one (announcements_collection s0) i) eqn:Hf;
         [rewrite (found_truthy _ _ _ Hf); specialize (Hupd _ eq_refl)|]
     | |- context [parse_date fromisoformat (get_default ?f "end_date" ?x)] =>
         destruct (parse_date fromisoformat (get_default f "end_date" x))
     | |- context [and_then ?a ?b] => destruct (and_then a b)
     | |- context [find_one (update_one _ _ _) _] => rewrite Hupd
     end; cbn [negb andb announcements_collection]; cbv beta iota;
     try reflexivity).
Qed.

(** What [create_announcement] computes for an authorized caller. *)
Lemma create_announcement_run id now_iso payload teacher_username s :
  authorized s teacher_username →
  create_announcement fromisoformat id now_iso payload teacher_username s
  = match parse_date fromisoformat (Some (AnnouncementCreate.end_date payload)) with
    | None => (inl (mkHTTPException 400 "Invalid request"), s)
    | Some e =>
        if and_then (parse_date fromisoformat (AnnouncementCreate.start_date payload))
             (λ b, date_gt b e)
        then (inl (mkHTTPException 400 "Invalid request"), s)
        else
          match insert_one (announcements_collection s) (new_record id now_iso payload) with
          | None => (inl (mkHTTPException 500 "Request failed"), s)
          | Some docs =>
              (inr (serialize_announcement (new_record id now_iso payload)),
               mkdb docs (teachers_collection s))
          end
    end.
Proof.
  intros Hauth. unfold create_announcement.
  rewrite bind_run, (require_teacher_authorized _ _ Hauth).
  fold (new_record id now_iso payload).
  destruct (parse_date fromisoformat (Some (AnnouncementCreate.end_date payload)));
    [|reflexivity].
  destruct (and_then _ _); [reflexivity|].
  rewrite bind_run. unfold reads.
  destruct (insert_one _ _); reflexivity.
Qed.

(** C5. For every create, update or delete request whose teacher_username
    is missing (absent or empty) or not present in the teacher directory,
    the operation fails with Unauthorized and the store is left exactly as
    it was. *)
Theorem unauthorized_mutation_rejected s teacher_username :
  (teacher_username = None ∨ teacher_username = Some ""
   ∨ ∃ username, teacher_username = Some username
                 ∧ find_one (teachers_collection s) username = None) →
  (∀ id now_iso payload, ∃ e,
      create_announcement fromisoformat id now_iso payload teacher_username s
      = (inl e, s) ∧ Unauthorized e)
  ∧ (∀ now_iso id payload, ∃ e,
      update_announcement fromisoformat now_iso id payload teacher_username s
      = (inl e, s) ∧ Unauthorized e)
  ∧ (∀ id, ∃ e,
      delete_announcement id teacher_username s = (inl e, s) ∧ Unauthorized e).
Proof.
  intros H. apply not_authorized_iff, require_teacher_unauthorized in H.
  destruct H as (e & He & H401).
  repeat split; intros; exists e;
    unfold create_announcement, update_announcement, delete_announcement;
    rewrite bind_run, He; auto.
Qed.

(** C1 (amended). For every authorized update request targeting an id with
    no existing record: when the payload supplies a non-empty start_date
    that does not parse, or an end_date that does not parse, the update
    fails with BadRequest; otherwise it fails with NotFound. The store is
    unchanged either way. *)
Theorem update_missing_id now_iso id payload teacher_username s :
  authorized s teacher_username →
  find_one (announcements_collection s) id = None →
  ∃ e, update_announcement fromisoformat now_iso id payload teacher_username s
       = (inl e, s)
     ∧ (payload_dates_parse fromisoformat payload = true → NotFound e)
     ∧ (payload_dates_parse fromisoformat payload = false → BadRequest e).
Proof.
  intros Hauth Hf. rewrite (update_announcement_run _ _ _ _ _ Hauth), Hf.
  destruct (payload_dates_parse fromisoformat payload);
    eexists; (split; [reflexivity|]); split; intros; first [reflexivity | discriminate].
Qed.

(** C8. For an authorized caller and a store whose ids are unique: delete
    fails with NotFound exactly when no stored record has that id, it
    succeeds exactly when some record has it, and after a successful
    delete a second delete on the same id fails with NotFound. *)
Theorem delete_twice_not_found id teacher_username s :
  authorized s teacher_username →
  unique_ids (announcements_collection s) →
  ((∃ e s', delete_announcement id teacher_username s = (inl e, s') ∧ NotFound e)
     ↔ ∀ doc, In doc (announcements_collection s) → get doc "_id" ≠ Some id)
  ∧ ((∃ r s', delete_announcement id teacher_username s = (inr r, s'))
     ↔ ∃ doc, In doc (announcements_collection s) ∧ get doc "_id" = Some id)
  ∧ (∀ r s', delete_announcement id teacher_username s = (inr r, s') →
       ∃ e, delete_announcement id teacher_username s' = (inl e, s') ∧ NotFound e).
Proof.
  intros Hauth Huniq. rewrite (delete_announcement_run _ _ _ Hauth).
  rewrite <- find_one_None.
  destruct (find_one (announcements_collection s) id) as [doc|] eqn:Hf.
  - split; [|split].
    + split; [intros (e & s' & [=] & _) | discriminate].
    + split; [|eauto]. intros _. exists doc. now apply find_one_Some in Hf.
    + intros r s' [= <- <-].
      destruct (delete_one_present _ _ _ Hf) as (c' & Hdel & Hgone & _).
      rewrite Hdel. simpl.
      assert (authorized (mkdb c' (teachers_collection s)) teacher_username) as Hauth'
        by exact Hauth.
      rewrite (delete_announcement_run _ _ _ Hauth'). simpl.
      rewrite (Hgone Huniq). eexists. split; reflexivity.
  - split; [|split].
    + split; [reflexivity|]. intros _. do 2 eexists. split; reflexivity.
    + split; [intros (r & s' & [=])|].
      intros (doc & Hin & Hid). exfalso.
      eapply find_one_None in Hf; eauto.
    + intros r s' [=].
Qed.

(** ** Level normalisation and the created record *)

Lemma allowed_iff x :
  existsb (String.eqb x) ALLOWED_LEVELS = true ↔ In x ALLOWED_LEVELS.
Proof.
  rewrite existsb_exists. split.
  - intros (y & Hin & Heq). apply String.eqb_eq in Heq. now subst.
  - intros Hin. exists x. split; [exact Hin | apply String.eqb_refl].
Qed.

Lemma normalize_level_allowed value : In (normalize_level value) ALLOWED_LEVELS.
Proof.
  unfold normalize_level.
  destruct value as [[|a x]|]; [left; reflexivity| |left; reflexivity].
  cbv zeta. destruct (existsb _ ALLOWED_LEVELS) eqn:He; [|left; reflexivity].
  now apply allowed_iff.
Qed.

Lemma normalize_level_unrecognized value :
  (value = None ∨ ∃ x, value = Some x ∧ ¬ In (lower x) ALLOWED_LEVELS) →
  normalize_level value = "info".
Proof.
  unfold normalize_level. intros [->|(x & -> & Hn)]; [reflexivity|].
  destruct x as [|a x]; [reflexivity|]. cbv zeta.
  destruct (existsb _ ALLOWED_LEVELS) eqn:He; [|reflexivity].
  apply allowed_iff in He. contradiction.
Qed.

Lemma normalize_level_recognized x :
  In (lower x) ALLOWED_LEVELS → normalize_level (Some x) = lower x.
Proof.
  unfold normalize_level. intros Hin.
  destruct x as [|a x]; [simpl in Hin; intuition discriminate|].
  cbv zeta. apply allowed_iff in Hin. now rewrite Hin.
Qed.

Ltac record_field :=
  unfold get, new_record; cbn [list_to_map foldr fst snd uncurry];
  repeat (rewrite lookup_insert_ne by discriminate);
  now rewrite lookup_insert_eq.

Lemma new_record_id id now_iso payload :
  get (new_record id now_iso payload) "_id" = Some id.
Proof. record_field. Qed.

Lemma new_record_message id now_iso payload :
  get (new_record id now_iso payload) "message"
  = Some (str_strip (AnnouncementCreate.message payload)).
Proof. record_field. Qed.

Lemma new_record_start_date id now_iso payload :
  get (new_record id now_iso payload) "start_date"
  = or_None (AnnouncementCreate.start_date payload).
Proof. record_field. Qed.

Lemma new_record_end_date id now_iso payload :
  get (new_record id now_iso payload) "end_date"
  = Some (AnnouncementCreate.end_date payload).
Proof. record_field. Qed.

Lemma new_record_level id now_iso payload :
  new_record id now_iso payload !! "level"
  = Some (Some (normalize_level (AnnouncementCreate.level payload))).
Proof. record_field. Qed.

Lemma new_record_created_at id now_iso payload :
  get (new_record id now_iso payload) "created_at" = Some now_iso.
Proof. record_field. Qed.

Lemma new_record_updated_at id now_iso payload :
  get (new_record id now_iso payload) "updated_at" = Some now_iso.
Proof. record_field. Qed.

(** A create request that is authorized, carries valid dates and a fresh
    id stores [new_record] and returns it serialized. *)
Lemma create_announcement_ok id now_iso payload teacher_username s e :
  authorized s teacher_username →
  parse_date fromisoformat (Some (AnnouncementCreate.end_date payload)) = Some e →
  (∀ b, parse_date fromisoformat (AnnouncementCreate.start_date payload) = Some b →
        date_le b e = true) →
  find_one (announcements_collection s) id = None →
  create_announcement fromisoformat id now_iso payload teacher_username s
  = (inr (serialize_announcement (new_record id now_iso payload)),
     mkdb (announcements_collection s ++ [new_record id now_iso payload])
          (teachers_collection s)).
Proof.
  intros Hauth He Hstart Hfresh.
  rewrite (create_announcement_run _ _ _ _ _ Hauth), He.
  assert (and_then (parse_date fromisoformat (AnnouncementCreate.start_date payload))
            (λ b, date_gt b e) = false) as ->.
  { destruct (parse_date fromisoformat (AnnouncementCreate.start_date payload)) as [b|];
      [|reflexivity].
    simpl. specialize (Hstart b eq_refl). unfold date_le, date_gt in *.
    destruct (date_cmp b e); congruence. }
  assert (insert_one (announcements_collection s) (new_record id now_iso payload)
          = Some (announcements_collection s ++ [new_record id now_iso payload])%list)
    as ->; [|reflexivity].
  apply insert_one_Some. split; [|reflexivity].
  apply find_one_ids in Hfresh.
  pose proof (new_record_id id now_iso payload) as Hid. unfold get in Hid.
  destruct (new_record id now_iso payload !! "_id") as [v|]; congruence.
Qed.

Lemma get_all_announcements_run teacher_username s :
  authorized s teacher_username →
  get_all_announcements teacher_username s
  = (inr (sort_by (λ item, or_str (get item "created_at") "")
            (map serialize_announcement (announcements_collection s))), s).
Proof.
  intros Hauth. unfold get_all_announcements.
  now rewrite bind_run, (require_teacher_authorized _ _ Hauth).
Qed.

(** C7 (amended). For every record created by an authorized, valid create
    request (the end_date parses, a start_date that parses does not exceed
    it, the generated id is fresh), a subsequent list-all read returns
    that record with the generated id, the message whitespace-trimmed, the
    level normalized to an allowed value, the end_date as submitted, the
    start_date as submitted except that an empty start_date reads back as
    absent, and created_at equal to updated_at. *)
Theorem create_then_list_all id now_iso payload teacher_username s e :
  authorized s teacher_username →
  parse_date fromisoformat (Some (AnnouncementCreate.end_date payload)) = Some e →
  (∀ b, parse_date fromisoformat (AnnouncementCreate.start_date payload) = Some b →
        date_le b e = true) →
  find_one (announcements_collection s) id = None →
  ∃ r s' l,
    create_announcement fromisoformat id now_iso payload teacher_username s = (inr r, s')
    ∧ get_all_announcements teacher_username s' = (inr l, s')
    ∧ In r l
    ∧ get r "id" = Some id
    ∧ get r "message" = Some (str_strip (AnnouncementCreate.message payload))
    ∧ get r "start_date" = or_None (AnnouncementCreate.start_date payload)
    ∧ get r "end_date" = Some (AnnouncementCreate.end_date payload)
    ∧ get r "level" = Some (normalize_level (AnnouncementCreate.level payload))
    ∧ In (normalize_level (AnnouncementCreate.level payload)) ALLOWED_LEVELS
    ∧ get r "created_at" = Some now_iso
    ∧ get r "updated_at" = Some now_iso.
Proof.
  intros Hauth He Hstart Hfresh.
  do 3 eexists. split; [now apply (create_announcement_ok _ _ _ _ _ e)|].
  split; [now apply get_all_announcements_run|].
  split.
  { apply sort_by_In, in_map. cbn [announcements_collection].
    apply in_or_app. right. now left. }
  rewrite serialize_id, serialize_message, serialize_start_date, serialize_end_date,
    serialize_level, serialize_created_at, serialize_updated_at.
  unfold get_default. rewrite new_record_level.
  rewrite new_record_id, new_record_message, new_record_start_date,
    new_record_end_date, new_record_created_at, new_record_updated_at.
  repeat split. apply normalize_level_allowed.
Qed.

(** C9. For every authorized, valid create request, the stored level is
    one of "info", "success", "warning"; when the submitted level is absent
    or is not, case aside, one of these three, the stored level is "info"
    (and when it is one of them, the stored level is its lower-case
    form). *)
Theorem create_stores_normalized_level id now_iso payload teacher_username s e :
  authorized s teacher_username →
  parse_date fromisoformat (Some (AnnouncementCreate.end_date payload)) = Some e →
  (∀ b, parse_date fromisoformat (AnnouncementCreate.start_date payload) = Some b →
        date_le b e = true) →
  find_one (announcements_collection s) id = None →
  ∃ r s' stored lv,
    create_announcement fromisoformat id now_iso payload teacher_username s = (inr r, s')
    ∧ find_one (announcements_collection s') id = Some stored
    ∧ stored !! "level" = Some (Some lv)
    ∧ In lv ALLOWED_LEVELS
    ∧ ((AnnouncementCreate.level payload = None
        ∨ ∃ x, AnnouncementCreate.level payload = Some x
               ∧ ¬ In (lower x) ALLOWED_LEVELS) → lv = "info")
    ∧ (∀ x, AnnouncementCreate.level payload = Some x →
            In (lower x) ALLOWED_LEVELS → lv = lower x).
Proof.
  intros Hauth He Hstart Hfresh.
  do 4 eexists. split; [now apply (create_announcement_ok _ _ _ _ _ e)|].
  split.
  { cbn [announcements_collection]. apply find_one_snoc; [exact Hfresh|].
    apply has_id_get, new_record_id. }
  split; [apply new_record_level|].
  split; [apply normalize_level_allowed|].
  split; [apply normalize_level_unrecognized|].
  intros x -> Hin. now apply normalize_level_recognized.
Qed.

(** ** Partial updates *)

(** The two guards in words: they fail exactly on a non-empty start_date
    that is no date, or on a supplied end_date that yields no date. *)
Lemma payload_dates_parse_false payload :
  payload_dates_parse fromisoformat payload = false ↔
  (∃ sd, AnnouncementUpdate.start_date payload = Some sd ∧ sd ≠ ""
         ∧ fromisoformat sd = None)
  ∨ (∃ ed, AnnouncementUpdate.end_date payload = Some ed
           ∧ no_date fromisoformat (Some ed)).
Proof.
  unfold payload_dates_parse. rewrite andb_false_iff.
  match goal with |- ?a ∨ ?b ↔ ?c ∨ ?d => cut ((a ↔ c) ∧ (b ↔ d)); [tauto|] end.
  split.
  - destruct (AnnouncementUpdate.start_date payload) as [[|a sd]|]; simpl.
    + split; [discriminate|]. intros (sd & [= <-] & Hne & _). congruence.
    + destruct (fromisoformat (String a sd)) as [d|] eqn:Hd.
      * rewrite bool_decide_eq_true_2 by eauto. simpl.
        split; [discriminate|]. intros (sd' & [= <-] & _ & H). congruence.
      * rewrite bool_decide_eq_false_2 by (intros [? [=]]). simpl.
        split; [|reflexivity]. intros _. exists (String a sd). eauto.
    + split; [discriminate|]. intros (sd & [=] & _).
  - destruct (AnnouncementUpdate.end_date payload) as [ed|].
    + rewrite bool_decide_eq_false. split.
      * intros Hn. exists ed. split; [reflexivity|]. apply parse_date_None.
        destruct (parse_date fromisoformat (Some ed)); [destruct Hn; eauto | reflexivity].
      * intros (ed' & Heq & Hn) [d Hd]. injection Heq as <-.
        apply parse_date_None in Hn. congruence.
    + split; [discriminate|]. intros (ed & [=] & _).
Qed.

(** C4 (amended). For every authorized update request on an existing
    record that supplies start_date as the empty string, and whose
    resulting end_date (the supplied one, else the stored one) parses: the
    update succeeds, the stored record then has start_date absent, its
    end_date is the supplied one if the payload supplies one and otherwise
    the end_date it had before, and every field the payload does not supply
    (other than updated_at) keeps its previous value. *)
Theorem update_empty_start_date_clears now_iso id payload teacher_username s
    (existing : dict) e :
  authorized s teacher_username →
  find_one (announcements_collection s) id = Some existing →
  AnnouncementUpdate.start_date payload = Some "" →
  parse_date fromisoformat
    (match AnnouncementUpdate.end_date payload with
     | Some ed => Some ed
     | None => get existing "end_date"
     end) = Some e →
  ∃ (updated : dict) s',
    update_announcement fromisoformat now_iso id payload teacher_username s
    = (inr (serialize_announcement updated), s')
    ∧ find_one (announcements_collection s') id = Some updated
    ∧ get updated "start_date" = None
    ∧ get updated "end_date"
      = match AnnouncementUpdate.end_date payload with
        | Some ed => Some ed
        | None => get existing "end_date"
        end
    ∧ (AnnouncementUpdate.end_date payload = None →
         updated !! "end_date" = existing !! "end_date")
    ∧ (AnnouncementUpdate.message payload = None →
         updated !! "message" = existing !! "message")
    ∧ (AnnouncementUpdate.level payload = None →
         updated !! "level" = existing !! "level")
    ∧ (∀ k, ¬ In k ["updated_at"; "message"; "start_date"; "end_date"; "level"] →
         updated !! k = existing !! k).
Proof.
  intros Hauth Hf Hsd He.
  pose proof (update_one_find _ _ _ _ (update_fields_of_id now_iso payload) Hf) as Hupd.
  exists (update_fields_of now_iso payload ∪ existing).
  exists (mkdb (update_one (announcements_collection s) id
                  (update_fields_of now_iso payload)) (teachers_collection s)).
  rewrite (update_announcement_run _ _ _ _ _ Hauth), Hf.
  unfold payload_dates_parse, update_fields_of, get_default, get in *.
  destruct payload as [m sd ed l].
  cbn [AnnouncementUpdate.message AnnouncementUpdate.start_date
       AnnouncementUpdate.end_date AnnouncementUpdate.level] in *.
  subst sd. cbv zeta in *.
  assert (∀ (o : option opt_str) k, o ∪ existing !! k
            = match o with Some v => Some v | None => existing !! k end) as Hun.
  { intros [v|] k; now destruct (existing !! k). }
  destruct m as [m|], ed as [ed|], l as [l|];
    rewrite ?He, ?(bool_decide_eq_true_2 (is_Some (Some e))) by (now exists e);
    cbn [truthy String.eqb negb andb or_None announcements_collection] in *;
    repeat (rewrite lookup_insert_ne by discriminate);
    rewrite ?lookup_insert_eq, ?lookup_singleton_ne by discriminate;
    rewrite ?He; cbn [parse_date and_then];
    (split; [reflexivity|]); (split; [exact Hupd|]);
    rewrite !lookup_union, !Hun;
    repeat (rewrite lookup_insert_ne by discriminate);
    rewrite ?lookup_insert_eq, ?lookup_singleton_ne by discriminate;
    (repeat split; try discriminate; try reflexivity);
    intros k Hk; rewrite lookup_union, Hun;
    repeat (rewrite lookup_insert_ne by (intros <-; apply Hk; simpl; tauto));
    rewrite lookup_singleton_ne by (intros <-; apply Hk; simpl; tauto);
    reflexivity.
Qed.

End Requests.

(** ** The store invariant

    The handlers keep [_id] a unique key, starting from the empty
    collection. *)

Lemma authorized_or_not s teacher_username :
  authorized s teacher_username ∨ ¬ authorized s teacher_username.
Proof.
  destruct teacher_username as [u|]; [|right; intros (u & [=] & _)].
  destruct (decide (u = "")) as [->|Hne].
  { right. intros (u & [= <-] & Hne & _). congruence. }
  destruct (find_one (teachers_collection s) u) as [t|] eqn:Ht.
  - left. exists u. eauto.
  - right. intros (u' & [= <-] & _ & Hsome). rewrite Ht in Hsome.
    now destruct Hsome.
Qed.

Lemma unique_ids_empty : unique_ids [].
Proof. apply NoDup_nil_2. Qed.

Lemma delete_announcement_unique_ids id teacher_username s :
  unique_ids (announcements_collection s) →
  unique_ids (announcements_collection (delete_announcement id teacher_username s).2).
Proof.
  intros Hu. destruct (authorized_or_not s teacher_username) as [Hauth|Hn].
  - rewrite (delete_announcement_run _ _ _ Hauth).
    destruct (find_one (announcements_collection s) id) as [doc|] eqn:Hf; [|exact Hu].
    destruct (delete_one_present _ _ _ Hf) as (c' & -> & _ & Hsub).
    eapply sublist_NoDup; eauto.
  - apply require_teacher_unauthorized in Hn as (e & He & _).
    unfold delete_announcement. now rewrite bind_run, He.
Qed.

Section Invariant.

Variable fromisoformat : string → option date.
Context {SS : StrStrip}.

Lemma create_announcement_unique_ids id now_iso payload teacher_username s :
  unique_ids (announcements_collection s) →
  unique_ids (announcements_collection
    (create_announcement fromisoformat id now_iso payload teacher_username s).2).
Proof.
  intros Hu. destruct (authorized_or_not s teacher_username) as [Hauth|Hn].
  - rewrite (create_announcement_run _ _ _ _ _ _ Hauth).
    destruct (parse_date _ _); [|exact Hu].
    destruct (and_then _ _); [exact Hu|].
    destruct (insert_one _ _) as [c'|] eqn:Hins; [|exact Hu].
    apply insert_one_Some in Hins as [Hfresh ->].
    unfold unique_ids, ids in *. cbn [snd announcements_collection].
    rewrite fmap_app. apply NoDup_app. split; [exact Hu|]. split.
    + intros x Hx Hx'. apply list_elem_of_singleton in Hx'. now subst.
    + apply NoDup_singleton.
  - apply require_teacher_unauthorized in Hn as (e & He & _).
    unfold create_announcement. now rewrite bind_run, He.
Qed.

Lemma update_announcement_unique_ids now_iso id payload teacher_username s :
  unique_ids (announcements_collection s) →
  unique_ids (announcements_collection
    (update_announcement fromisoformat now_iso id payload teacher_username s).2).
Proof.
  intros Hu. destruct (authorized_or_not s teacher_username) as [Hauth|Hn].
  - rewrite (update_announcement_run _ _ _ _ _ _ Hauth).
    destruct (payload_dates_parse _ _); [|exact Hu].
    destruct (find_one _ _); [|exact Hu]. cbv zeta.
    destruct (parse_date _ _); [|exact Hu].
    destruct (and_then _ _); [exact Hu|].
    unfold unique_ids. cbn [snd announcements_collection].
    now rewrite update_one_ids by apply update_fields_of_id.
  - apply require_teacher_unauthorized in Hn as (e & He & _).
    unfold update_announcement. now rewrite bind_run, He.
Qed.

End Invariant.

(** ** Concrete requests, with the [YYYY-MM-DD] parser *)

Section ConcreteRequests.

#[local] Existing Instance ascii_strip.

Lemma mrodriguez_authorized c : authorized (mkdb c teachers0) (Some "mrodriguez").
Proof.
  exists "mrodriguez". split; [reflexivity|]. split; [discriminate|].
  eexists. reflexivity.
Defined.

(** C2: the code departs from the claim. A create request whose start_date
    is provided and does not parse is not rejected: the record is stored
    with that start_date. The update path rejects the same value with
    BadRequest. *)
Theorem create_accepts_unparseable_start_date :
  AnnouncementCreate.start_date payload2 = Some "soon"
  ∧ parse_date date_fromisoformat (Some "soon") = None
  ∧ create_announcement date_fromisoformat "a2" "2029-12-02T08:00:00" payload2
      (Some "mrodriguez") db0
    = (inr (serialize_announcement ann2), db2)
  ∧ update_announcement date_fromisoformat "2029-12-02T08:00:00" "a1"
      (AnnouncementUpdate.mk None (Some "soon") None None) (Some "mrodriguez") db1
    = (inl (mkHTTPException 400 "Invalid request"), db1).
Proof. repeat split; vm_compute; reflexivity. Qed.

Lemma unauthorized_mutation_rejected_witness :
  (∃ e, create_announcement date_fromisoformat "a4" "2030-01-01T00:00:00" payload4
          (Some "intruder") db1 = (inl e, db1) ∧ Unauthorized e)
  ∧ (∃ e, update_announcement date_fromisoformat "2030-01-01T00:00:00" "a1"
          upd_clear_start None db1 = (inl e, db1) ∧ Unauthorized e)
  ∧ (∃ e, delete_announcement "a1" (Some "") db1 = (inl e, db1) ∧ Unauthorized e).
Proof.
  split; [|split].
  - apply (unauthorized_mutation_rejected date_fromisoformat db1 (Some "intruder")).
    right. right. exists "intruder". split; reflexivity.
  - apply (unauthorized_mutation_rejected date_fromisoformat db1 None).
    left. reflexivity.
  - apply (unauthorized_mutation_rejected date_fromisoformat db1 (Some "")).
    right. left. reflexivity.
Defined.

Lemma update_missing_id_witness :
  ∃ e, update_announcement date_fromisoformat "2030-01-01T00:00:00" "zz"
         upd_clear_start_new_end (Some "mrodriguez") db1 = (inl e, db1)
     ∧ (payload_dates_parse date_fromisoformat upd_clear_start_new_end = true → NotFound e)
     ∧ (payload_dates_parse date_fromisoformat upd_clear_start_new_end = false → BadRequest e).
Proof.
  apply (update_missing_id date_fromisoformat "2030-01-01T00:00:00" "zz"
           upd_clear_start_new_end (Some "mrodriguez") db1).
  - apply mrodriguez_authorized.
  - reflexivity.
Defined.

(** The claim as worded fails: on an id with no record, a payload whose
    end_date does not parse is answered with BadRequest, not NotFound. *)
Lemma update_missing_id_invalid_payload :
  ¬ (∀ now_iso id payload teacher_username s,
       authorized s teacher_username →
       find_one (announcements_collection s) id = None →
       ∃ e s', update_announcement date_fromisoformat now_iso id payload
                 teacher_username s = (inl e, s') ∧ NotFound e).
Proof.
  intros H.
  destruct (H "2030-01-01T00:00:00" "zz" upd_bad_end (Some "mrodriguez") db1
              (mrodriguez_authorized _) eq_refl) as (e & s' & Hrun & H404).
  vm_compute in Hrun. injection Hrun as <- _. discriminate H404.
Qed.

Lemma update_empty_start_date_clears_witness :
  ∃ (updated : dict) s',
    update_announcement date_fromisoformat "2030-01-01T00:00:00" "a1"
      upd_clear_start (Some "mrodriguez") db1
    = (inr (serialize_announcement updated), s')
    ∧ find_one (announcements_collection s') "a1" = Some updated
    ∧ get updated "start_date" = None
    ∧ get updated "end_date" = Some "2030-02-01".
Proof.
  destruct (update_empty_start_date_clears date_fromisoformat "2030-01-01T00:00:00"
              "a1" upd_clear_start (Some "mrodriguez") db1 ann1 (mkdate 2030 2 1)
              (mrodriguez_authorized _) eq_refl eq_refl eq_refl)
    as (updated & s' & Hrun & Hfind & Hstart & Hend & _).
  exists updated, s'. repeat split; assumption.
Defined.

(** The claim as worded fails: a payload that clears start_date and also
    supplies end_date changes end_date. *)
Lemma update_empty_start_date_new_end_date :
  ¬ (∀ now_iso id payload teacher_username s (existing : dict),
       authorized s teacher_username →
       find_one (announcements_collection s) id = Some existing →
       AnnouncementUpdate.start_date payload = Some "" →
       ∀ r s', update_announcement date_fromisoformat now_iso id payload
                 teacher_username s = (inr r, s') →
         ∃ updated : dict,
           find_one (announcements_collection s') id = Some updated
           ∧ get updated "start_date" = None
           ∧ get updated "end_date" = get existing "end_date").
Proof.
  intros H.
  specialize (H "2030-01-01T00:00:00" "a1" upd_clear_start_new_end (Some "mrodriguez")
                db1 ann1 (mrodriguez_authorized _) eq_refl eq_refl).
  destruct (update_announcement date_fromisoformat "2030-01-01T00:00:00" "a1"
              upd_clear_start_new_end (Some "mrodriguez") db1) as [[e|r] s'] eqn:Hrun;
    [vm_compute in Hrun; discriminate Hrun|].
  destruct (H r s' eq_refl) as (updated & Hfind & _ & Hend).
  vm_compute in Hrun. injection Hrun as _ <-.
  vm_compute in Hfind. injection Hfind as <-.
  vm_compute in Hend. discriminate Hend.
Qed.

Lemma create_then_list_all_witness :
  ∃ r s' l,
    create_announcement date_fromisoformat "a4" "2030-01-01T00:00:00" payload4
      (Some "mrodriguez") db1 = (inr r, s')
    ∧ get_all_announcements (Some "mrodriguez") s' = (inr l, s')
    ∧ In r l
    ∧ get r "message" = Some "Bake sale"
    ∧ get r "start_date" = None
    ∧ get r "level" = Some "info".
Proof.
  destruct (create_then_list_all date_fromisoformat "a4" "2030-01-01T00:00:00"
              payload4 (Some "mrodriguez") db1 (mkdate 2030 4 1)
              (mrodriguez_authorized _) eq_refl)
    as (r & s' & l & Hrun & Hall & Hin & _ & Hmsg & Hstart & _ & Hlevel & _).
  - intros b Hb. discriminate Hb.
  - reflexivity.
  - exists r, s', l. repeat split; assumption.
Defined.

(** The claim as worded fails: an empty start_date does not read back as
    submitted, it reads back as absent. *)
Lemma create_empty_start_date_reads_absent :
  ¬ (∀ id now_iso payload teacher_username s e,
       authorized s teacher_username →
       parse_date date_fromisoformat (Some (AnnouncementCreate.end_date payload)) = Some e →
       (∀ b, parse_date date_fromisoformat (AnnouncementCreate.start_date payload) = Some b →
             date_le b e = true) →
       find_one (announcements_collection s) id = None →
       ∃ r s' l,
         create_announcement date_fromisoformat id now_iso payload teacher_username s
         = (inr r, s')
         ∧ get_all_announcements teacher_username s' = (inr l, s')
         ∧ In r l
         ∧ get r "start_date" = AnnouncementCreate.start_date payload
         ∧ get r "end_date" = Some (AnnouncementCreate.end_date payload)).
Proof.
  intros H.
  destruct (H "a4" "2030-01-01T00:00:00" payload4 (Some "mrodriguez") db1
              (mkdate 2030 4 1) (mrodriguez_authorized _) eq_refl)
    as (r & s' & l & Hrun & _ & _ & Hstart & _).
  - intros b Hb. discriminate Hb.
  - reflexivity.
  - vm_compute in Hrun. injection Hrun as <- _.
    vm_compute in Hstart. discriminate Hstart.
Qed.

Lemma delete_twice_not_found_witness :
  ∃ r s',
    delete_announcement "a1" (Some "mrodriguez") db1 = (inr r, s')
    ∧ ∃ e, delete_announcement "a1" (Some "mrodriguez") s' = (inl e, s') ∧ NotFound e.
Proof.
  assert (unique_ids (announcements_collection db1)) as Hu.
  { apply NoDup_cons_2; [apply not_elem_of_nil | apply NoDup_nil_2]. }
  destruct (delete_twice_not_found "a1" (Some "mrodriguez") db1
              (mrodriguez_authorized _) Hu) as (_ & _ & Hsecond).
  do 2 eexists. split; [reflexivity|]. eapply Hsecond. reflexivity.
Defined.

Lemma create_stores_normalized_level_witness :
  ∃ r s' (stored : dict),
    create_announcement date_fromisoformat "a4" "2030-01-01T00:00:00" payload4
      (Some "mrodriguez") db1 = (inr r, s')
    ∧ find_one (announcements_collection s') "a4" = Some stored
    ∧ stored !! "level" = Some (Some "info").
Proof.
  destruct (create_stores_normalized_level date_fromisoformat "a4"
              "2030-01-01T00:00:00" payload4 (Some "mrodriguez") db1 (mkdate 2030 4 1)
              (mrodriguez_authorized _) eq_refl)
    as (r & s' & stored & lv & Hrun & Hfind & Hlv & _ & Hinfo & _).
  - intros b Hb. discriminate Hb.
  - reflexivity.
  - exists r, s', stored. repeat split; try assumption.
    rewrite Hlv, Hinfo; [reflexivity|].
    right. exists "bogus". split; [reflexivity|].
    simpl. intros [H|[H|[H|[]]]]; discriminate H.
Defined.

End ConcreteRequests.

(** * Further properties of the handlers *)

(** ** The teacher gate and list-all *)

(** X1. [require_teacher] lets a caller through exactly when the username
    is non-empty and has a record in the teacher directory; every refusal
    is a 401, and the gate never writes. *)
Theorem require_teacher_outcome s teacher_username :
  (authorized s teacher_username
   ∧ require_teacher teacher_username s = (inr (), s))
  ∨ (¬ authorized s teacher_username
     ∧ ∃ e, require_teacher teacher_username s = (inl e, s) ∧ Unauthorized e).
Proof.
  destruct (authorized_or_not s teacher_username) as [H|H]; [left|right];
    (split; [exact H|]).
  - now apply require_teacher_authorized.
  - now apply require_teacher_unauthorized.
Qed.

(** X2. List-all refuses a caller whose teacher_username is missing, empty
    or unknown to the directory with Unauthorized, and reads nothing. *)
Theorem list_all_unauthorized s teacher_username :
  (teacher_username = None ∨ teacher_username = Some ""
   ∨ ∃ username, teacher_username = Some username
                 ∧ find_one (teachers_collection s) username = None) →
  ∃ e, get_all_announcements teacher_username s = (inl e, s) ∧ Unauthorized e.
Proof.
  intros H. apply not_authorized_iff, require_teacher_unauthorized in H.
  destruct H as (e & He & H401). exists e.
  unfold get_all_announcements. now rewrite bind_run, He.
Qed.

Lemma list_all_unauthorized_witness :
  ∃ e, get_all_announcements (Some "intruder") db3 = (inl e, db3) ∧ Unauthorized e.
Proof.
  apply (list_all_unauthorized db3 (Some "intruder")).
  right. right. exists "intruder". split; reflexivity.
Defined.

(** X3. For an authorized caller list-all returns every stored record,
    serialized, once each, in ascending order of created_at (a record
    without created_at sorts first, under the empty key), and leaves the
    store as it was. *)
Theorem list_all_sorted s teacher_username :
  authorized s teacher_username →
  ∃ l, get_all_announcements teacher_username s = (inr l, s)
    ∧ Permutation l (map serialize_announcement (announcements_collection s))
    ∧ StronglySorted (key_le created_at_key) l
    ∧ length l = length (announcements_collection s).
Proof.
  intros Hauth. eexists. split; [now apply get_all_announcements_run|].
  split; [apply sort_by_perm|]. split; [apply (sort_by_sorted created_at_key)|].
  rewrite (Permutation_length (sort_by_perm _ _)). apply length_map.
Qed.

Lemma list_all_sorted_witness :
  ∃ l, get_all_announcements (Some "mrodriguez") db3 = (inr l, db3)
    ∧ Permutation l (map serialize_announcement (announcements_collection db3))
    ∧ StronglySorted (key_le created_at_key) l
    ∧ length l = length (announcements_collection db3).
Proof.
  apply (list_all_sorted db3 (Some "mrodriguez")). apply mrodriguez_authorized.
Defined.

(** X4. Records with the same created_at keep their store order in the
    output of list-all: the sort is stable. *)
Theorem list_all_stable s teacher_username k :
  authorized s teacher_username →
  ∃ l, get_all_announcements teacher_username s = (inr l, s)
    ∧ List.filter (λ item, String.eqb (created_at_key item) k) l
      = List.filter (λ item, String.eqb (created_at_key item) k)
          (map serialize_announcement (announcements_collection s)).
Proof.
  intros Hauth. eexists. split; [now apply get_all_announcements_run|].
  apply (sort_by_stable created_at_key).
Qed.

Lemma list_all_stable_witness :
  ∃ l, get_all_announcements (Some "mrodriguez") db3 = (inr l, db3)
    ∧ List.filter (λ item, String.eqb (created_at_key item) "2029-12-01T08:00:00") l
      = [serialize_announcement ann1].
Proof.
  destruct (list_all_stable db3 (Some "mrodriguez") "2029-12-01T08:00:00"
              (mrodriguez_authorized _)) as (l & Hrun & Hl).
  exists l. split; [exact Hrun|]. rewrite Hl. reflexivity.
Defined.

(** ** Serialisation and level normalisation *)

Lemma lower_ascii_idem c : lower_ascii (lower_ascii c) = lower_ascii c.
Proof. destruct c as [[] [] [] [] [] [] [] []]; reflexivity. Qed.

Lemma lower_idem s : lower (lower s) = lower s.
Proof.
  induction s as [|c s IH]; simpl; [reflexivity|].
  now rewrite lower_ascii_idem, IH.
Qed.

(** X6. Level normalisation is idempotent and does not depend on the case
    of its input. *)
Theorem normalize_level_stable value x :
  normalize_level (Some (normalize_level value)) = normalize_level value
  ∧ normalize_level (Some (lower x)) = normalize_level (Some x).
Proof.
  split.
  - pose proof (normalize_level_allowed value) as H. simpl in H.
    destruct H as [<-|[<-|[<-|[]]]]; reflexivity.
  - destruct x as [|c x]; [reflexivity|].
    change (normalize_level (Some (lower (String c x))))
      with (if existsb (String.eqb (lower (lower (String c x)))) ALLOWED_LEVELS
            then lower (lower (String c x)) else "info").
    now rewrite lower_idem.
Qed.

(** ** Create *)

Lemma find_one_snoc_other (c : collection) id id' (record : dict) :
  id' ≠ id → has_id id record = true →
  find_one (c ++ [record]) id' = find_one c id'.
Proof.
  intros Hne Hr. unfold find_one. induction c as [|d c IH]; simpl.
  - assert (has_id id' record = false) as ->; [|reflexivity].
    apply has_id_get in Hr. destruct (has_id id' record) eqn:H; [|reflexivity].
    apply has_id_get in H. congruence.
  - destruct (has_id id' d); [reflexivity | exact IH].
Qed.

Lemma delete_one_snoc (c : collection) id (record : dict) :
  find_one c id = None → has_id id record = true →
  delete_one (c ++ [record]) id = (c, 1).
Proof.
  unfold find_one. intros Hc Hr. induction c as [|d c IH]; simpl in *.
  - now rewrite Hr.
  - destruct (has_id id d); [discriminate|]. now rewrite IH.
Qed.

Lemma insert_one_taken (c : collection) id (doc record : dict) :
  find_one c id = Some doc → has_id id record = true → insert_one c record = None.
Proof.
  intros Hf Hr. unfold insert_one.
  assert (existsb (λ d : dict, bool_decide (d !! "_id" = record !! "_id")) c = true)
    as ->; [|reflexivity].
  apply find_some in Hf as [Hin Hd]. apply existsb_exists. exists doc.
  split; [exact Hin|]. unfold has_id in *.
  apply bool_decide_eq_true in Hd, Hr. apply bool_decide_eq_true. congruence.
Qed.

Lemma new_record_has_id {SS : StrStrip} id now_iso payload :
  has_id id (new_record id now_iso payload) = true.
Proof. apply has_id_get, new_record_id. Qed.

Section Create.

Variable fromisoformat : string → option date.
Context {SS : StrStrip}.

(** A create that answers with a record was authorized, had a fresh id
    and appended [new_record]. *)
Lemma create_announcement_inr id now_iso payload teacher_username s r s' :
  create_announcement fromisoformat id now_iso payload teacher_username s = (inr r, s') →
  authorized s teacher_username
  ∧ find_one (announcements_collection s) id = None
  ∧ r = serialize_announcement (new_record id now_iso payload)
  ∧ s' = mkdb (announcements_collection s ++ [new_record id now_iso payload])
              (teachers_collection s).
Proof.
  destruct (authorized_or_not s teacher_username) as [Hauth|Hn].
  - rewrite (create_announcement_run _ _ _ _ _ _ Hauth).
    destruct (parse_date _ _); [|discriminate].
    destruct (and_then _ _); [discriminate|].
    destruct (insert_one _ _) as [c'|] eqn:Hins; [|discriminate].
    apply insert_one_Some in Hins as [Hfresh ->]. intros [= <- <-].
    repeat split; [exact Hauth|].
    apply find_one_ids. pose proof (new_record_id id now_iso payload) as Hid.
    unfold get in Hid. destruct (new_record id now_iso payload !! "_id") as [v|];
      congruence.
  - apply require_teacher_unauthorized in Hn as (e & He & _).
    unfold create_announcement. rewrite bind_run, He. discriminate.
Qed.

(** X7. For an authorized caller, create fails with BadRequest exactly
    when the end_date yields no date, or the start_date parses to a date
    after the end_date; a start_date that does not parse is let through.
    A rejected request leaves the store unchanged. *)
Theorem create_bad_request_iff id now_iso payload teacher_username s :
  authorized s teacher_username →
  ((∃ e s', create_announcement fromisoformat id now_iso payload teacher_username s
            = (inl e, s') ∧ BadRequest e)
   ↔ create_dates_rejected fromisoformat payload)
  ∧ (create_dates_rejected fromisoformat payload →
     ∃ e, create_announcement fromisoformat id now_iso payload teacher_username s
          = (inl e, s) ∧ BadRequest e).
Proof.
  intros Hauth. rewrite (create_announcement_run _ _ _ _ _ _ Hauth).
  unfold create_dates_rejected.
  destruct (parse_date fromisoformat (Some (AnnouncementCreate.end_date payload)))
    as [e|].
  2:{ split; [split; auto|]. - intros _. do 2 eexists. split; reflexivity.
      - intros _. eexists. split; reflexivity. }
  destruct (parse_date fromisoformat (AnnouncementCreate.start_date payload)) as [b|];
    cbn [and_then].
  - destruct (date_gt b e) eqn:Hgt.
    + split; [split|]; intros; [right; eauto| |]; repeat eexists; reflexivity.
    + assert (¬ (Some e = None ∨ ∃ b0 e0, Some b = Some b0 ∧ Some e = Some e0
                                      ∧ date_gt b0 e0 = true)) as Hno.
      { intros [H|(b0 & e0 & [= <-] & [= <-] & H)]; congruence. }
      split; [split|]; [|tauto|tauto].
      intros (e' & s' & Hrun & H400). exfalso.
      destruct (insert_one _ _); inversion Hrun; subst; discriminate H400.
  - assert (¬ (Some e = None ∨ ∃ b0 e0, @None date = Some b0 ∧ Some e = Some e0
                                      ∧ date_gt b0 e0 = true)) as Hno.
    { intros [H|(b0 & e0 & H & _)]; congruence. }
    split; [split|]; [|tauto|tauto].
    intros (e' & s' & Hrun & H400). exfalso.
    destruct (insert_one _ _); inversion Hrun; subst; discriminate H400.
Qed.

(** X8. An authorized create with valid dates whose generated id is
    already taken fails with InternalError and stores nothing. *)
Theorem create_duplicate_id id now_iso payload teacher_username s e (doc : dict) :
  authorized s teacher_username →
  parse_date fromisoformat (Some (AnnouncementCreate.end_date payload)) = Some e →
  (∀ b, parse_date fromisoformat (AnnouncementCreate.start_date payload) = Some b →
        date_le b e = true) →
  find_one (announcements_collection s) id = Some doc →
  ∃ err, create_announcement fromisoformat id now_iso payload teacher_username s
         = (inl err, s) ∧ InternalError err.
Proof.
  intros Hauth He Hstart Hf.
  rewrite (create_announcement_run _ _ _ _ _ _ Hauth), He.
  assert (and_then (parse_date fromisoformat (AnnouncementCreate.start_date payload))
            (λ b, date_gt b e) = false) as ->.
  { destruct (parse_date fromisoformat (AnnouncementCreate.start_date payload)) as [b|];
      [|reflexivity].
    simpl. specialize (Hstart b eq_refl). unfold date_le, date_gt in *.
    destruct (date_cmp b e); congruence. }
  rewrite (insert_one_taken _ _ _ _ Hf (new_record_has_id _ _ _)).
  eexists. split; reflexivity.
Qed.

(** X9. A create that succeeds appends one record carrying the generated
    id after the records already stored, which stay as they were and in
    their order; the lookup of any other id and the teacher directory are
    unchanged. *)
Theorem create_frame id now_iso payload teacher_username s r s' :
  create_announcement fromisoformat id now_iso payload teacher_username s = (inr r, s') →
  ∃ stored : dict,
    announcements_collection s' = (announcements_collection s ++ [stored])%list
    ∧ get stored "_id" = Some id
    ∧ find_one (announcements_collection s') id = Some stored
    ∧ (∀ id', id' ≠ id →
         find_one (announcements_collection s') id'
         = find_one (announcements_collection s) id')
    ∧ teachers_collection s' = teachers_collection s.
Proof.
  intros Hrun. apply create_announcement_inr in Hrun as (_ & Hfresh & _ & ->).
  exists (new_record id now_iso payload). cbn [announcements_collection teachers_collection].
  split; [reflexivity|]. split; [apply new_record_id|].
  split; [apply find_one_snoc; [exact Hfresh | apply new_record_has_id]|].
  split; [|reflexivity].
  intros id' Hne. apply (find_one_snoc_other _ id); [exact Hne | apply new_record_has_id].
Qed.

(** X11. Deleting the record a create has just stored restores the store:
    after an authorized, valid create with a fresh id, a delete of that id
    succeeds and the state is the one before the create. *)
Theorem create_then_delete_restores id now_iso payload teacher_username s e :
  authorized s teacher_username →
  parse_date fromisoformat (Some (AnnouncementCreate.end_date payload)) = Some e →
  (∀ b, parse_date fromisoformat (AnnouncementCreate.start_date payload) = Some b →
        date_le b e = true) →
  find_one (announcements_collection s) id = None →
  ∃ r s' r',
    create_announcement fromisoformat id now_iso payload teacher_username s = (inr r, s')
    ∧ delete_announcement id teacher_username s' = (inr r', s).
Proof.
  intros Hauth He Hstart Hfresh.
  do 3 eexists. split; [now apply (create_announcement_ok _ _ _ _ _ _ e)|].
  assert (authorized
            (mkdb (announcements_collection s ++ [new_record id now_iso payload])
                  (teachers_collection s)) teacher_username) as Hauth' by exact Hauth.
  rewrite (delete_announcement_run _ _ _ Hauth').
  cbn [announcements_collection teachers_collection].
  rewrite (find_one_snoc _ _ _ Hfresh (new_record_has_id _ _ _)).
  rewrite (delete_one_snoc _ _ _ Hfresh (new_record_has_id _ _ _)).
  destruct s. reflexivity.
Qed.

End Create.

Section ConcreteCreate.

#[local] Existing Instance ascii_strip.

Lemma create_bad_request_iff_witness :
  create_dates_rejected date_fromisoformat
    (AnnouncementCreate.mk "Trip" (Some "2030-05-02") "2030-05-01" None)
  ∧ ∃ e, create_announcement date_fromisoformat "a5" "2030-01-01T00:00:00"
           (AnnouncementCreate.mk "Trip" (Some "2030-05-02") "2030-05-01" None)
           (Some "mrodriguez") db1 = (inl e, db1) ∧ BadRequest e.
Proof.
  assert (create_dates_rejected date_fromisoformat
            (AnnouncementCreate.mk "Trip" (Some "2030-05-02") "2030-05-01" None)) as H.
  { right. exists (mkdate 2030 5 2), (mkdate 2030 5 1). repeat split. }
  split; [exact H|].
  apply (create_bad_request_iff date_fromisoformat "a5" "2030-01-01T00:00:00" _
           (Some "mrodriguez") db1 (mrodriguez_authorized _)).
  exact H.
Defined.

Lemma create_duplicate_id_witness :
  ∃ err, create_announcement date_fromisoformat "a1" "2030-01-01T00:00:00" payload4
           (Some "mrodriguez") db1 = (inl err, db1) ∧ InternalError err.
Proof.
  apply (create_duplicate_id date_fromisoformat "a1" "2030-01-01T00:00:00" payload4
           (Some "mrodriguez") db1 (mkdate 2030 4 1) ann1 (mrodriguez_authorized _)).
  - reflexivity.
  - intros b Hb. discriminate Hb.
  - reflexivity.
Defined.

Lemma create_frame_witness :
  ∃ stored : dict,
    announcements_collection
      (create_announcement date_fromisoformat "a4" "2030-01-01T00:00:00" payload4
         (Some "mrodriguez") db1).2
    = [ann1; stored]
    ∧ get stored "_id" = Some "a4".
Proof.
  destruct (create_frame date_fromisoformat "a4" "2030-01-01T00:00:00" payload4
              (Some "mrodriguez") db1 _ _ eq_refl) as (stored & Hs & Hid & _).
  exists stored. split; [exact Hs | exact Hid].
Defined.

Lemma create_then_delete_restores_witness :
  ∃ r s' r',
    create_announcement date_fromisoformat "a4" "2030-01-01T00:00:00" payload4
      (Some "mrodriguez") db1 = (inr r, s')
    ∧ delete_announcement "a4" (Some "mrodriguez") s' = (inr r', db1).
Proof.
  apply (create_then_delete_restores date_fromisoformat "a4" "2030-01-01T00:00:00"
           payload4 (Some "mrodriguez") db1 (mkdate 2030 4 1) (mrodriguez_authorized _)).
  - reflexivity.
  - intros b Hb. discriminate Hb.
  - reflexivity.
Defined.

End ConcreteCreate.

(** ** Update *)

Lemma update_fields_of_lookup {SS : StrStrip} now_iso payload :
  let fields := update_fields_of now_iso payload in
  fields !! "updated_at" = Some (Some now_iso)
  ∧ fields !! "message"
    = (λ m, Some (str_strip m)) <$> AnnouncementUpdate.message payload
  ∧ fields !! "start_date"
    = (λ sd, or_None (Some sd)) <$> AnnouncementUpdate.start_date payload
  ∧ fields !! "end_date" = Some <$> AnnouncementUpdate.end_date payload
  ∧ fields !! "level"
    = (λ l, Some (normalize_level (Some l))) <$> AnnouncementUpdate.level payload
  ∧ (∀ k, ¬ In k ["updated_at"; "message"; "start_date"; "end_date"; "level"] →
          fields !! k = None).
Proof.
  unfold update_fields_of. payload_cases payload; cbv zeta; cbn [fmap option_fmap option_map];
    repeat split;
    try (repeat (rewrite lookup_insert_ne by discriminate);
         rewrite ?lookup_insert_eq, ?lookup_singleton_eq, ?lookup_singleton_ne
           by discriminate; reflexivity);
    intros k Hk;
    repeat (rewrite lookup_insert_ne by (intros <-; apply Hk; simpl; tauto));
    rewrite lookup_singleton_ne by (intros <-; apply Hk; simpl; tauto);
    reflexivity.
Qed.

Lemma get_union (fields doc : dict) k :
  get (fields ∪ doc) k = merged (fields !! k) (get doc k).
Proof.
  unfold get, merged. rewrite lookup_union.
  destruct (fields !! k), (doc !! k); reflexivity.
Qed.

Lemma update_one_find_other (c : collection) id id' (fields : dict) :
  id' ≠ id → fields !! "_id" = None →
  find_one (update_one c id fields) id' = find_one c id'.
Proof.
  intros Hne Hf. unfold find_one. induction c as [|d c IH]; simpl; [reflexivity|].
  destruct (has_id id d) eqn:Hd; simpl.
  - assert (has_id id' (fields ∪ d) = false ∧ has_id id' d = false) as [-> ->];
      [|reflexivity].
    apply has_id_get in Hd. unfold has_id, get in *.
    rewrite lookup_union_r by exact Hf.
    destruct (d !! "_id") as [v|]; [|discriminate]. subst v.
    split; apply bool_decide_eq_false; congruence.
  - destruct (has_id id' d); [reflexivity | exact IH].
Qed.

Lemma update_one_length (c : collection) id (fields : dict) :
  length (update_one c id fields) = length c.
Proof.
  induction c as [|d c IH]; simpl; [reflexivity|].
  destruct (has_id id d); simpl; [reflexivity | now rewrite IH].
Qed.

Lemma update_one_Forall (P : gmap string (option string) → Prop) (c : collection) id
    (fields : dict) :
  Forall P c → (∀ doc, find_one c id = Some doc → P (fields ∪ doc)) →
  Forall P (update_one c id fields).
Proof.
  unfold find_one. induction 1 as [|d c Hd Hc IH]; simpl; intros Hnew; [constructor|].
  destruct (has_id id d).
  - constructor; [now apply Hnew | exact Hc].
  - constructor; [exact Hd | now apply IH].
Qed.

Section Update.

Variable fromisoformat : string → option date.
Context {SS : StrStrip}.

Lemma parse_date_or_None value :
  parse_date fromisoformat (or_None value) = parse_date fromisoformat value.
Proof. destruct value as [[|c s]|]; reflexivity. Qed.

(** [update_announcement] for an authorized caller, on the merged dates. *)
Lemma update_announcement_merged now_iso id payload teacher_username s :
  authorized s teacher_username →
  update_announcement fromisoformat now_iso id payload teacher_username s
  = if payload_dates_parse fromisoformat payload then
      match find_one (announcements_collection s) id with
      | None => (inl (mkHTTPException 404 "Announcement not found"), s)
      | Some existing =>
          match parse_date fromisoformat (merged_end_date payload existing) with
          | None => (inl (mkHTTPException 400 "Invalid request"), s)
          | Some e =>
              if and_then
                   (parse_date fromisoformat (merged_start_date payload existing))
                   (λ b, date_gt b e)
              then (inl (mkHTTPException 400 "Invalid request"), s)
              else (inr (serialize_announcement
                           (update_fields_of now_iso payload ∪ existing)),
                    mkdb (update_one (announcements_collection s) id
                            (update_fields_of now_iso payload))
                         (teachers_collection s))
          end
      end
    else (inl (mkHTTPException 400 "Invalid request"), s).
Proof.
  intros Hauth. rewrite (update_announcement_run _ _ _ _ _ _ Hauth).
  destruct (update_fields_of_lookup now_iso payload) as (_ & _ & Hs & He & _).
  destruct (payload_dates_parse _ _); [|reflexivity].
  destruct (find_one _ _) as [existing|]; [|reflexivity]. cbv zeta.
  unfold get_default, merged_end_date, merged_start_date, merged.
  now rewrite Hs, He.
Qed.

(** An update that answers with a record. *)
Lemma update_announcement_inr now_iso id payload teacher_username s r s' :
  update_announcement fromisoformat now_iso id payload teacher_username s = (inr r, s') →
  ∃ (existing : dict) e,
    find_one (announcements_collection s) id = Some existing
    ∧ parse_date fromisoformat (merged_end_date payload existing) = Some e
    ∧ (∀ b, parse_date fromisoformat (merged_start_date payload existing) = Some b →
            date_le b e = true)
    ∧ r = serialize_announcement (update_fields_of now_iso payload ∪ existing)
    ∧ s' = mkdb (update_one (announcements_collection s) id
                   (update_fields_of now_iso payload))
                (teachers_collection s).
Proof.
  destruct (authorized_or_not s teacher_username) as [Hauth|Hn].
  - rewrite (update_announcement_merged _ _ _ _ _ Hauth).
    destruct (payload_dates_parse _ _); [|discriminate].
    destruct (find_one _ _) as [existing|]; [|discriminate].
    destruct (parse_date fromisoformat (merged_end_date payload existing)) as [e|]
      eqn:He; [|discriminate].
    destruct (and_then _ _) eqn:Hgt; [discriminate|].
    intros [= <- <-]. exists existing, e.
    split; [reflexivity|]. split; [exact He|]. split; [|split; reflexivity].
    intros b Hb. rewrite Hb in Hgt. simpl in Hgt.
    unfold date_le, date_gt in *. destruct (date_cmp b e); congruence.
  - apply require_teacher_unauthorized in Hn as (e & He & _).
    unfold update_announcement. rewrite bind_run, He. discriminate.
Qed.

(** X12. For an authorized update of an existing record whose payload
    passes the per-field checks, the merged dates decide: when the
    resulting end_date yields no date, or the resulting start_date parses
    to a date after it, the update fails with BadRequest and the store is
    unchanged; otherwise the update succeeds. The resulting value of a
    field is the supplied one, else the stored one. *)
Theorem update_existing_outcome now_iso id payload teacher_username s (existing : dict) :
  authorized s teacher_username →
  find_one (announcements_collection s) id = Some existing →
  payload_dates_parse fromisoformat payload = true →
  let rejected :=
    parse_date fromisoformat (merged_end_date payload existing) = None
    ∨ ∃ b e, parse_date fromisoformat (merged_start_date payload existing) = Some b
             ∧ parse_date fromisoformat (merged_end_date payload existing) = Some e
             ∧ date_gt b e = true in
  (rejected →
     ∃ err, update_announcement fromisoformat now_iso id payload teacher_username s
            = (inl err, s) ∧ BadRequest err)
  ∧ (¬ rejected →
     ∃ r s', update_announcement fromisoformat now_iso id payload teacher_username s
             = (inr r, s')).
Proof.
  intros Hauth Hf Hok rejected. subst rejected.
  rewrite (update_announcement_merged _ _ _ _ _ Hauth), Hok, Hf.
  destruct (parse_date fromisoformat (merged_end_date payload existing)) as [e|].
  2:{ split; [intros _; eexists; split; reflexivity | intros H; destruct H; auto]. }
  destruct (parse_date fromisoformat (merged_start_date payload existing)) as [b|];
    cbn [and_then].
  - destruct (date_gt b e) eqn:Hgt.
    + split; [intros _; eexists; split; reflexivity|].
      intros H. destruct H. right. eauto.
    + split; [|intros _; eauto].
      intros [H|(b0 & e0 & Hb & He & H)]; [discriminate|]. congruence.
  - split; [|intros _; eauto].
    intros [H|(b0 & e0 & Hb & _)]; discriminate.
Qed.

(** X13. After a successful update the stored record is the one returned;
    its updated_at is the request time; message, start_date, end_date and
    level hold the supplied value (message trimmed, an empty start_date
    stored as null, level normalized) when the payload supplies the field
    and the previous value otherwise; every other key, [_id] and
    created_at among them, is unchanged. *)
Theorem update_success_fields now_iso id payload teacher_username s r s' :
  update_announcement fromisoformat now_iso id payload teacher_username s = (inr r, s') →
  ∃ existing updated : dict,
    find_one (announcements_collection s) id = Some existing
    ∧ find_one (announcements_collection s') id = Some updated
    ∧ r = serialize_announcement updated
    ∧ get updated "updated_at" = Some now_iso
    ∧ get updated "message"
      = merged ((λ m, Some (str_strip m)) <$> AnnouncementUpdate.message payload)
               (get existing "message")
    ∧ get updated "start_date" = merged_start_date payload existing
    ∧ get updated "end_date" = merged_end_date payload existing
    ∧ get updated "level"
      = merged ((λ l, Some (normalize_level (Some l))) <$> AnnouncementUpdate.level payload)
               (get existing "level")
    ∧ (∀ k, ¬ In k ["updated_at"; "message"; "start_date"; "end_date"; "level"] →
            updated !! k = existing !! k).
Proof.
  intros Hrun.
  apply update_announcement_inr in Hrun as (existing & e & Hf & _ & _ & -> & ->).
  exists existing, (update_fields_of now_iso payload ∪ existing).
  destruct (update_fields_of_lookup now_iso payload) as (Hu & Hm & Hs & He & Hl & Hk).
  cbn [announcements_collection].
  split; [exact Hf|].
  split; [apply update_one_find; [apply update_fields_of_id | exact Hf]|].
  split; [reflexivity|].
  rewrite !get_union, Hu, Hm, Hs, He, Hl.
  repeat split.
  intros k Hnk. rewrite lookup_union, (Hk k Hnk).
  now destruct (existing !! k).
Qed.

(** X14. Whatever its outcome, an update touches at most the record with
    the targeted id: the teacher directory, the ids and their order, the
    number of records and the lookup of every other id are unchanged. *)
Theorem update_frame now_iso id payload teacher_username s :
  let s' := (update_announcement fromisoformat now_iso id payload teacher_username s).2 in
  teachers_collection s' = teachers_collection s
  ∧ ids (announcements_collection s') = ids (announcements_collection s)
  ∧ length (announcements_collection s') = length (announcements_collection s)
  ∧ ∀ id', id' ≠ id →
      find_one (announcements_collection s') id'
      = find_one (announcements_collection s) id'.
Proof.
  destruct (update_announcement fromisoformat now_iso id payload teacher_username s)
    as [[e|r] s'] eqn:Hrun; cbn [snd].
  - assert (s' = s) as ->; [|auto].
    destruct (authorized_or_not s teacher_username) as [Hauth|Hn].
    + rewrite (update_announcement_merged _ _ _ _ _ Hauth) in Hrun.
      destruct (payload_dates_parse _ _); [|congruence].
      destruct (find_one _ _); [|congruence].
      destruct (parse_date _ _); [|congruence].
      destruct (and_then _ _); congruence.
    + apply require_teacher_unauthorized in Hn as (e' & He & _).
      unfold update_announcement in Hrun. rewrite bind_run, He in Hrun. congruence.
  - apply update_announcement_inr in Hrun as (existing & e & _ & _ & _ & _ & ->).
    cbn [announcements_collection teachers_collection].
    split; [reflexivity|].
    split; [apply update_one_ids, update_fields_of_id|].
    split; [apply update_one_length|].
    intros id' Hne. apply update_one_find_other; [exact Hne | apply update_fields_of_id].
Qed.

(** X15. An update cannot clear end_date: a payload whose end_date is the
    empty string is answered with BadRequest, whether or not the id
    exists, and nothing is written (an empty start_date, by contrast,
    clears the field). *)
Theorem update_empty_end_date_rejected now_iso id payload teacher_username s :
  authorized s teacher_username →
  AnnouncementUpdate.end_date payload = Some "" →
  ∃ err, update_announcement fromisoformat now_iso id payload teacher_username s
         = (inl err, s) ∧ BadRequest err.
Proof.
  intros Hauth Hed. rewrite (update_announcement_merged _ _ _ _ _ Hauth).
  assert (payload_dates_parse fromisoformat payload = false) as ->.
  { unfold payload_dates_parse. rewrite Hed. cbn [parse_date].
    rewrite (bool_decide_eq_false_2 (is_Some None)) by (intros [? [=]]).
    apply andb_false_r. }
  eexists. split; reflexivity.
Qed.

End Update.

Section ConcreteUpdate.

#[local] Existing Instance ascii_strip.

Lemma update_existing_outcome_witness :
  ∃ err, update_announcement date_fromisoformat "2030-01-01T00:00:00" "a1"
           (AnnouncementUpdate.mk None (Some "2030-02-02") None None)
           (Some "mrodriguez") db1 = (inl err, db1) ∧ BadRequest err.
Proof.
  apply (update_existing_outcome date_fromisoformat "2030-01-01T00:00:00" "a1"
           (AnnouncementUpdate.mk None (Some "2030-02-02") None None)
           (Some "mrodriguez") db1 ann1 (mrodriguez_authorized _) eq_refl eq_refl).
  right. exists (mkdate 2030 2 2), (mkdate 2030 2 1). repeat split.
Defined.

Lemma update_success_fields_witness :
  ∃ existing updated : dict,
    find_one (announcements_collection db1) "a1" = Some existing
    ∧ get updated "updated_at" = Some "2030-01-01T00:00:00"
    ∧ get updated "level" = Some "success"
    ∧ get updated "message" = get existing "message"
    ∧ updated !! "created_at" = existing !! "created_at".
Proof.
  destruct (update_success_fields date_fromisoformat "2030-01-01T00:00:00" "a1"
              (AnnouncementUpdate.mk None None None (Some "Success"))
              (Some "mrodriguez") db1 _ _ eq_refl)
    as (existing & updated & Hf & _ & _ & Hu & Hm & _ & _ & Hl & Hk).
  exists existing, updated. repeat split; try assumption.
  apply Hk. simpl. intros [H|[H|[H|[H|[H|[]]]]]]; discriminate H.
Defined.

Lemma update_empty_end_date_rejected_witness :
  ∃ err, update_announcement date_fromisoformat "2030-01-01T00:00:00" "a1"
           (AnnouncementUpdate.mk None None (Some "") None)
           (Some "mrodriguez") db1 = (inl err, db1) ∧ BadRequest err.
Proof.
  apply (update_empty_end_date_rejected date_fromisoformat "2030-01-01T00:00:00" "a1"
           (AnnouncementUpdate.mk None None (Some "") None)
           (Some "mrodriguez") db1 (mrodriguez_authorized _) eq_refl).
Defined.

End ConcreteUpdate.

(** ** Delete *)

Lemma delete_one_find_other (c : collection) id id' :
  id' ≠ id → find_one (delete_one c id).1 id' = find_one c id'.
Proof.
  intros Hne. unfold find_one. induction c as [|d c IH]; simpl; [reflexivity|].
  destruct (has_id id d) eqn:Hd.
  - simpl. assert (has_id id' d = false) as ->; [|reflexivity].
    destruct (has_id id' d) eqn:Hd'; [|reflexivity].
    apply has_id_get in Hd, Hd'. congruence.
  - destruct (delete_one c id) as [r n]. simpl in *.
    destruct (has_id id' d); [reflexivity | exact IH].
Qed.

Lemma delete_one_count (c : collection) id :
  Z.of_nat (length (delete_one c id).1) + (delete_one c id).2 = Z.of_nat (length c)
  ∧ ((delete_one c id).2 = 0 ∨ (delete_one c id).2 = 1).
Proof.
  induction c as [|d c [IH1 IH2]]; simpl; [auto|].
  destruct (has_id id d); simpl; [split; [lia | auto]|].
  destruct (delete_one c id) as [r n]. simpl in *. split; [lia | exact IH2].
Qed.

Lemma delete_one_sublist (c : collection) id : (delete_one c id).1 `sublist_of` c.
Proof.
  induction c as [|d c IH]; simpl; [constructor|].
  destruct (has_id id d); simpl; [now apply sublist_cons|].
  destruct (delete_one c id) as [r n]. simpl in *. now apply sublist_skip.
Qed.

Lemma delete_announcement_state id teacher_username s :
  (∃ e, delete_announcement id teacher_username s = (inl e, s))
  ∨ (∃ r, delete_announcement id teacher_username s
          = (inr r, mkdb (delete_one (announcements_collection s) id).1
                         (teachers_collection s))
          ∧ is_Some (find_one (announcements_collection s) id)).
Proof.
  destruct (authorized_or_not s teacher_username) as [Hauth|Hn].
  - rewrite (delete_announcement_run _ _ _ Hauth).
    destruct (find_one _ _) as [doc|]; [right; eauto | left; eauto].
  - left. apply require_teacher_unauthorized in Hn as (e & He & _).
    exists e. unfold delete_announcement. now rewrite bind_run, He.
Qed.

(** X16. Whatever its outcome, a delete leaves the teacher directory, the
    lookup of every other id and the order of the remaining records
    unchanged; a delete that succeeds removes exactly one record, a delete
    that fails removes none. *)
Theorem delete_frame id teacher_username s :
  let out := delete_announcement id teacher_username s in
  teachers_collection out.2 = teachers_collection s
  ∧ announcements_collection out.2 `sublist_of` announcements_collection s
  ∧ (∀ id', id' ≠ id →
       find_one (announcements_collection out.2) id'
       = find_one (announcements_collection s) id')
  ∧ match out.1 with
    | inr _ => S (length (announcements_collection out.2))
               = length (announcements_collection s)
    | inl _ => out.2 = s
    end.
Proof.
  cbv zeta. destruct (delete_announcement_state id teacher_username s)
    as [(e & ->)|(r & -> & [doc Hf])];
    cbn [fst snd announcements_collection teachers_collection].
  - repeat split; auto.
  - split; [reflexivity|]. split; [apply delete_one_sublist|].
    split; [intros id' Hne; now apply delete_one_find_other|].
    destruct (delete_one_present _ _ _ Hf) as (c' & Hdel & _).
    pose proof (delete_one_count (announcements_collection s) id) as [Hc _].
    rewrite Hdel in *. simpl in *. lia.
Qed.

(** X17. After a successful delete on a store with unique ids, list-all no
    longer returns a record with the deleted id. *)
Theorem delete_then_list_all id teacher_username s r s' l :
  unique_ids (announcements_collection s) →
  delete_announcement id teacher_username s = (inr r, s') →
  get_all_announcements teacher_username s' = (inr l, s') →
  ∀ item, In item l → get item "id" ≠ Some id.
Proof.
  intros Hu Hdel Hall item Hin.
  destruct (authorized_or_not s teacher_username) as [Hauth|Hn].
  2:{ apply require_teacher_unauthorized in Hn as (e & He & _).
      unfold delete_announcement in Hdel. rewrite bind_run, He in Hdel. discriminate. }
  rewrite (delete_announcement_run _ _ _ Hauth) in Hdel.
  destruct (find_one (announcements_collection s) id) as [doc|] eqn:Hf; [|discriminate].
  injection Hdel as _ <-.
  destruct (delete_one_present _ _ _ Hf) as (c' & Hc' & Hgone & _).
  rewrite Hc' in Hall. cbn [fst] in Hall.
  assert (authorized (mkdb c' (teachers_collection s)) teacher_username) as Hauth'
    by exact Hauth.
  rewrite (get_all_announcements_run _ _ Hauth') in Hall. injection Hall as <-.
  apply sort_by_In, in_map_iff in Hin as (d & <- & Hd).
  rewrite serialize_id. cbn [announcements_collection] in Hd.
  exact (proj1 (find_one_None c' id) (Hgone Hu) d Hd).
Qed.

Lemma delete_then_list_all_witness :
  unique_ids (announcements_collection db3)
  ∧ List.Forall (λ item : dict, get item "id" ≠ Some "a1")
      (sort_by created_at_key (map serialize_announcement [ann2; ann3])).
Proof.
  assert (unique_ids (announcements_collection db3)) as Hu.
  { unfold unique_ids. apply (bool_decide_unpack (NoDup _)). vm_compute. exact I. }
  split; [exact Hu|]. apply List.Forall_forall.
  exact (delete_then_list_all "a1" (Some "mrodriguez") db3 _ _ _ Hu eq_refl eq_refl).
Defined.

(** ** Failures, invariants and the active window *)

Lemma date_le_iff a b :
  date_le a b = true ↔
  (year a < year b
   ∨ (year a = year b
      ∧ (month a < month b ∨ (month a = month b ∧ day a <= day b)))).
Proof.
  unfold date_le, date_cmp.
  destruct (Z.compare_spec (year a) (year b));
    [destruct (Z.compare_spec (month a) (month b));
       [destruct (Z.compare_spec (day a) (day b))| |]| |];
    split; intros; try discriminate; try reflexivity; lia.
Qed.

Lemma date_le_trans a b c :
  date_le a b = true → date_le b c = true → date_le a c = true.
Proof. rewrite !date_le_iff. lia. Qed.

Lemma delete_one_Forall (P : gmap string (option string) → Prop) (c : collection) id :
  Forall P c → Forall P (delete_one c id).1.
Proof.
  induction 1 as [|d c Hd Hc IH]; simpl; [constructor|].
  destruct (has_id id d); simpl; [exact Hc|].
  destruct (delete_one c id) as [r n]. simpl in *. now constructor.
Qed.

Section Composition.

Variable fromisoformat : string → option date.
Context {SS : StrStrip}.

Lemma create_announcement_outcome id now_iso payload teacher_username s :
  (∃ r s', create_announcement fromisoformat id now_iso payload teacher_username s
           = (inr r, s'))
  ∨ ∃ e, create_announcement fromisoformat id now_iso payload teacher_username s
         = (inl e, s)
       ∧ (Unauthorized e ∨ BadRequest e ∨ InternalError e).
Proof.
  destruct (authorized_or_not s teacher_username) as [Hauth|Hn].
  - rewrite (create_announcement_run _ _ _ _ _ _ Hauth).
    destruct (parse_date _ _);
      [|right; eexists; split; [reflexivity | right; left; reflexivity]].
    destruct (and_then _ _);
      [right; eexists; split; [reflexivity | right; left; reflexivity]|].
    destruct (insert_one _ _); [left; eauto|].
    right; eexists; split; [reflexivity | right; right; reflexivity].
  - apply require_teacher_unauthorized in Hn as (e & He & H401).
    right. exists e. unfold create_announcement. rewrite bind_run, He. auto.
Qed.

(** With a store whose [update_one] does not raise, an update that fails
    has not written. *)
Lemma update_announcement_outcome now_iso id payload teacher_username s :
  (∃ r s', update_announcement fromisoformat now_iso id payload teacher_username s
           = (inr r, s'))
  ∨ ∃ e, update_announcement fromisoformat now_iso id payload teacher_username s
         = (inl e, s)
       ∧ (Unauthorized e ∨ BadRequest e ∨ NotFound e).
Proof.
  destruct (authorized_or_not s teacher_username) as [Hauth|Hn].
  - rewrite (update_announcement_merged _ _ _ _ _ _ Hauth).
    destruct (payload_dates_parse _ _);
      [|right; eexists; split; [reflexivity | right; left; reflexivity]].
    destruct (find_one _ _);
      [|right; eexists; split; [reflexivity | right; right; reflexivity]].
    destruct (parse_date _ _);
      [|right; eexists; split; [reflexivity | right; left; reflexivity]].
    destruct (and_then _ _); [|left; eauto].
    right; eexists; split; [reflexivity | right; left; reflexivity].
  - apply require_teacher_unauthorized in Hn as (e & He & H401).
    right. exists e. unfold update_announcement. rewrite bind_run, He. auto.
Qed.

(** X18. A create, delete or list-all request that fails writes nothing,
    and every failure is among the errors of its endpoint: create answers
    with a record or with Unauthorized, BadRequest or InternalError;
    delete with a confirmation or with Unauthorized or NotFound; list-all
    with a list or with Unauthorized. *)
Theorem failures_write_nothing s teacher_username :
  (∀ id now_iso payload,
     (∃ r s', create_announcement fromisoformat id now_iso payload teacher_username s
              = (inr r, s'))
     ∨ ∃ e, create_announcement fromisoformat id now_iso payload teacher_username s
            = (inl e, s)
          ∧ (Unauthorized e ∨ BadRequest e ∨ InternalError e))
  ∧ (∀ id,
     (∃ r s', delete_announcement id teacher_username s = (inr r, s'))
     ∨ ∃ e, delete_announcement id teacher_username s = (inl e, s)
          ∧ (Unauthorized e ∨ NotFound e))
  ∧ ((∃ l, get_all_announcements teacher_username s = (inr l, s))
     ∨ ∃ e, get_all_announcements teacher_username s = (inl e, s) ∧ Unauthorized e).
Proof.
  split; [intros; apply create_announcement_outcome|].
  destruct (authorized_or_not s teacher_username) as [Hauth|Hn].
  - split.
    + intros id. rewrite (delete_announcement_run _ _ _ Hauth).
      destruct (find_one _ _); [left; eauto|].
      right; eexists; split; [reflexivity | right; reflexivity].
    + left. rewrite (get_all_announcements_run _ _ Hauth). eauto.
  - apply require_teacher_unauthorized in Hn as (e & He & H401).
    split; intros; right; exists e;
      unfold delete_announcement, get_all_announcements;
      rewrite bind_run, He; auto.
Qed.

(** X19. The three mutating handlers keep [_id] a unique key of the
    announcements collection, whatever their outcome. *)
Theorem handlers_keep_unique_ids s teacher_username :
  unique_ids (announcements_collection s) →
  (∀ id now_iso payload,
     unique_ids (announcements_collection
       (create_announcement fromisoformat id now_iso payload teacher_username s).2))
  ∧ (∀ now_iso id payload,
     unique_ids (announcements_collection
       (update_announcement fromisoformat now_iso id payload teacher_username s).2))
  ∧ (∀ id,
     unique_ids (announcements_collection (delete_announcement id teacher_username s).2)).
Proof.
  intros Hu. split; [|split]; intros.
  - now apply create_announcement_unique_ids.
  - now apply update_announcement_unique_ids.
  - now apply delete_announcement_unique_ids.
Qed.

Lemma new_record_valid_window id now_iso payload e :
  parse_date fromisoformat (Some (AnnouncementCreate.end_date payload)) = Some e →
  and_then (parse_date fromisoformat (AnnouncementCreate.start_date payload))
    (λ b, date_gt b e) = false →
  valid_window fromisoformat (new_record id now_iso payload).
Proof.
  intros He Hgt. exists e.
  rewrite new_record_end_date, new_record_start_date, parse_date_or_None.
  split; [exact He|]. intros b Hb. rewrite Hb in Hgt. simpl in Hgt.
  unfold date_le, date_gt in *. destruct (date_cmp b e); congruence.
Qed.

(** X20. The three mutating handlers keep every stored date window well
    formed: if each stored record has an end_date that parses and a
    start_date that, when it parses, is not after the end_date, the same
    holds after a create, an update or a delete, whatever the outcome. *)
Theorem handlers_keep_valid_windows s teacher_username :
  Forall (valid_window fromisoformat) (announcements_collection s) →
  (∀ id now_iso payload,
     Forall (valid_window fromisoformat) (announcements_collection
       (create_announcement fromisoformat id now_iso payload teacher_username s).2))
  ∧ (∀ now_iso id payload,
     Forall (valid_window fromisoformat) (announcements_collection
       (update_announcement fromisoformat now_iso id payload teacher_username s).2))
  ∧ (∀ id,
     Forall (valid_window fromisoformat)
       (announcements_collection (delete_announcement id teacher_username s).2)).
Proof.
  intros Hv. split; [|split].
  - intros id now_iso payload.
    destruct (create_announcement fromisoformat id now_iso payload teacher_username s)
      as [[e|r] s'] eqn:Hrun; cbn [snd].
    + destruct (create_announcement_outcome id now_iso payload teacher_username s)
        as [(r & s'' & H)|(e' & H & _)];
        rewrite H in Hrun; [discriminate|]. now injection Hrun as _ <-.
    + pose proof Hrun as Hinr.
      apply create_announcement_inr in Hinr as (Hauth & _ & _ & ->).
      rewrite (create_announcement_run _ _ _ _ _ _ Hauth) in Hrun.
      destruct (parse_date fromisoformat (Some (AnnouncementCreate.end_date payload)))
        as [e|] eqn:He; [|discriminate].
      destruct (and_then _ _) eqn:Hgt; [discriminate|].
      cbn [announcements_collection]. apply Forall_app. split; [exact Hv|].
      constructor; [|constructor]. now apply (new_record_valid_window _ _ _ e).
  - intros now_iso id payload.
    destruct (update_announcement fromisoformat now_iso id payload teacher_username s)
      as [[e|r] s'] eqn:Hrun; cbn [snd].
    + destruct (update_announcement_outcome now_iso id payload teacher_username s)
        as [(r & s'' & H)|(e' & H & _)];
        rewrite H in Hrun; [discriminate|]. now injection Hrun as _ <-.
    + apply update_announcement_inr in Hrun
        as (existing & e & Hf & He & Hs & _ & ->).
      cbn [announcements_collection]. apply update_one_Forall; [exact Hv|].
      intros doc Hdoc. rewrite Hf in Hdoc. injection Hdoc as <-.
      exists e. destruct (update_fields_of_lookup now_iso payload)
        as (_ & _ & Hsd & Hed & _).
      rewrite !get_union, Hsd, Hed. split; [exact He | exact Hs].
  - intros id.
    destruct (delete_announcement_state id teacher_username s)
      as [(e & ->)|(r & -> & _)]; cbn [snd announcements_collection]; [exact Hv|].
    now apply delete_one_Forall.
Qed.

(** X21. The days on which a record is active form an interval: a record
    active on two days is active on every day between them. *)
Theorem active_window_convex (doc : dict) d1 d2 d3 :
  is_active_announcement fromisoformat doc d1 = true →
  is_active_announcement fromisoformat doc d3 = true →
  date_le d1 d2 = true → date_le d2 d3 = true →
  is_active_announcement fromisoformat doc d2 = true.
Proof.
  rewrite !is_active_announcement_iff.
  intros [(e & He & H1e) Hs1] [(e' & He' & H3e) _] H12 H23.
  rewrite He in He'. injection He' as <-.
  split.
  - exists e. split; [exact He|]. eapply date_le_trans; eauto.
  - destruct Hs1 as [Hnone|(b & Hb & Hb1)]; [left; exact Hnone|].
    right. exists b. split; [exact Hb|]. eapply date_le_trans; eauto.
Qed.

(** X22. Every record the public list-active returns is also returned by
    list-all to an authorized caller. *)
Theorem active_listed_in_all today teacher_username s :
  authorized s teacher_username →
  ∃ active all,
    get_active_announcements fromisoformat today s = (inr active, s)
    ∧ get_all_announcements teacher_username s = (inr all, s)
    ∧ ∀ item, In item active → In item all.
Proof.
  intros Hauth. do 2 eexists.
  split; [apply get_active_announcements_run|].
  split; [now apply get_all_announcements_run|].
  intros item Hin. apply sort_by_In. apply sort_by_In in Hin.
  unfold active_records in Hin. apply in_map_iff in Hin as (d & <- & Hd).
  apply filter_In in Hd as [Hd _]. now apply in_map.
Qed.

(** X23. A record just created is listed as active on every day of its
    window: after an authorized, valid create with a fresh id, list-active
    on a day not after the end_date, and not before the start_date when
    that is a date, returns the created record. *)
Theorem create_then_list_active id now_iso payload teacher_username s e today :
  authorized s teacher_username →
  parse_date fromisoformat (Some (AnnouncementCreate.end_date payload)) = Some e →
  (∀ b, parse_date fromisoformat (AnnouncementCreate.start_date payload) = Some b →
        date_le b e = true ∧ date_le b today = true) →
  date_le today e = true →
  find_one (announcements_collection s) id = None →
  ∃ r s' l,
    create_announcement fromisoformat id now_iso payload teacher_username s = (inr r, s')
    ∧ get_active_announcements fromisoformat today s' = (inr l, s')
    ∧ In r l.
Proof.
  intros Hauth He Hstart Htoday Hfresh.
  do 3 eexists.
  split; [apply (create_announcement_ok _ _ _ _ _ _ e); auto; intros b Hb;
          now apply Hstart|].
  split; [apply get_active_announcements_run|].
  apply sort_by_In, active_records_In.
  - cbn [announcements_collection]. apply in_or_app. right. now left.
  - apply is_active_announcement_iff.
    rewrite new_record_end_date, new_record_start_date, parse_date_or_None.
    split; [eauto|].
    destruct (parse_date fromisoformat (AnnouncementCreate.start_date payload))
      as [b|] eqn:Hb; [|now left].
    right. exists b. split; [reflexivity|]. now apply Hstart.
Qed.

End Composition.

Section ConcreteComposition.

#[local] Existing Instance ascii_strip.

Lemma handlers_keep_unique_ids_witness :
  unique_ids (announcements_collection db3)
  ∧ unique_ids (announcements_collection
      (create_announcement date_fromisoformat "a4" "2030-01-01T00:00:00" payload4
         (Some "mrodriguez") db3).2).
Proof.
  assert (unique_ids (announcements_collection db3)) as Hu.
  { unfold unique_ids. apply (bool_decide_unpack (NoDup _)). vm_compute. exact I. }
  split; [exact Hu|].
  apply (handlers_keep_unique_ids date_fromisoformat db3 (Some "mrodriguez") Hu).
Defined.

Lemma handlers_keep_valid_windows_witness :
  Forall (valid_window date_fromisoformat) (announcements_collection db1)
  ∧ Forall (valid_window date_fromisoformat) (announcements_collection
      (update_announcement date_fromisoformat "2030-01-01T00:00:00" "a1"
         upd_clear_start_new_end (Some "mrodriguez") db1).2).
Proof.
  assert (Forall (valid_window date_fromisoformat) (announcements_collection db1)) as Hv.
  { constructor; [|constructor]. exists (mkdate 2030 2 1). split; [reflexivity|].
    intros b Hb. vm_compute in Hb. injection Hb as <-. reflexivity. }
  split; [exact Hv|].
  apply (handlers_keep_valid_windows date_fromisoformat db1 (Some "mrodriguez") Hv).
Defined.

Lemma active_window_convex_witness :
  is_active_announcement date_fromisoformat ann1 (mkdate 2030 1 20) = true.
Proof.
  apply (active_window_convex date_fromisoformat ann1
           (mkdate 2030 1 10) (mkdate 2030 1 20) (mkdate 2030 2 1));
    reflexivity.
Defined.

Lemma active_listed_in_all_witness :
  ∃ active all,
    get_active_announcements date_fromisoformat today0 db3 = (inr active, db3)
    ∧ get_all_announcements (Some "mrodriguez") db3 = (inr all, db3)
    ∧ List.Forall (λ item, In item all) active.
Proof.
  destruct (active_listed_in_all date_fromisoformat today0 (Some "mrodriguez") db3
              (mrodriguez_authorized _)) as (active & all & Ha & Hall & Hin).
  exists active, all. split; [exact Ha|]. split; [exact Hall|].
  now apply List.Forall_forall.
Defined.

Lemma create_then_list_active_witness :
  ∃ r s' l,
    create_announcement date_fromisoformat "a7" "2030-01-01T00:00:00"
      (AnnouncementCreate.mk "Open day" (Some "2030-01-10") "2030-01-31" None)
      (Some "mrodriguez") db1 = (inr r, s')
    ∧ get_active_announcements date_fromisoformat today0 s' = (inr l, s')
    ∧ In r l.
Proof.
  apply (create_then_list_active date_fromisoformat "a7" "2030-01-01T00:00:00"
           (AnnouncementCreate.mk "Open day" (Some "2030-01-10") "2030-01-31" None)
           (Some "mrodriguez") db1 (mkdate 2030 1 31) today0 (mrodriguez_authorized _)).
  - reflexivity.
  - intros b Hb. vm_compute in Hb. injection Hb as <-. split; reflexivity.
  - reflexivity.
  - reflexivity.
Defined.

End ConcreteComposition.

